(** * FinGuide-AI market-data core: normalizer, cache manager, adapters, orchestrator

    A shallow embedding of [src/market_data]:
    - [data_normalizer.py]  (module [Normalizer]),
    - [cache_manager.py]    (module [Cache]),
    - [base_client.py], [yahoo_client.py], [nse_client.py] (modules
      [BaseClient], [Yahoo] and [NSE], over [PyStr] and [Clock]),
    - [data_sources.py]     (modules [Orchestrator] and [Facade]),
    - [CacheManager.cleanup_expired] (module [CacheSweep]).

    Conventions of the embedding.
    - A Python payload ([Dict[str, Any]]) is a finite map from strings to
      [value]; dict equality in Python ignores insertion order, and so does
      [gmap].
    - A Python [float] is a [pyfloat]: the rational a finite float denotes,
      an infinity or NaN. Rounding is written out where the modelled code
      turns an integer into a float ([sig53]); arithmetic between floats
      occurs in one place only ([count * 0.9]) and is rounded there.
    - Instants are microseconds since [datetime.min], so that the last
      instant a [datetime] can hold is [Cache.datetime_max].
    - Python [str]s are Rocq strings; symbols are taken to be ASCII, for which
      [str.strip] and [str.upper] are modelled character by character.
    - A [try: ... except Exception] block is an [outcome] that is inspected
      where the source catches it. *)

From Stdlib Require Import ZArith QArith Qabs Qround String Ascii List Lia.
From Stdlib Require OrderedTypeEx.
From stdpp Require Import base gmap strings list fin_maps pretty.

Local Open Scope string_scope.

Set Warnings "-register-all".

(** ** Python values carried by payloads *)

(** A Python [float]. *)
Inductive pyfloat : Type :=
| Finite (q : Q)
| Infinity (negative : bool)
| NaN.

Inductive value : Type :=
| VNone
| VBool (b : bool)
| VInt (z : Z)
| VFloat (x : pyfloat)
| VStr (s : string)
| VList (l : list value)
| VDict (d : list (string * value)).

Abbreviation dict := (gmap string value).

(** Exceptions the modelled code can meet. [Raised msg] is an exception the
    repository raises itself with the message [msg]; the others come from the
    Python runtime or from a library. *)
Inductive exn : Type :=
| Raised (msg : string)
| ValueError
| TypeError
| OverflowError
| AttributeError
| IndexError
| KeyError
| LibraryError (msg : string).

Inductive outcome (A : Type) : Type :=
| Ok (a : A)
| Raise (e : exn).

Arguments Ok {A} a.
Arguments Raise {A} e.

(** Sequencing: an exception ends the block it is raised in. *)
Definition obind {A B : Type} (r : outcome A) (k : A -> outcome B) : outcome B :=
  match r with
  | Ok a => k a
  | Raise e => Raise e
  end.

(** [v is None] *)
Definition is_none (v : value) : bool :=
  match v with VNone => true | _ => false end.

(** [v == 0] as Python evaluates it: [0], [0.0] and [False] all compare equal
    to the integer zero; strings, lists, dicts and [None] never do. *)
Definition eq_zero (v : value) : bool :=
  match v with
  | VInt z => (z =? 0)%Z
  | VFloat (Finite q) => Qeq_bool q 0
  | VBool b => negb b
  | _ => false
  end.

(** Truth value of a Python object, as [if v:] and [not v] test it. *)
Definition truthy (v : value) : bool :=
  match v with
  | VNone => false
  | VBool b => b
  | VInt z => negb (z =? 0)%Z
  | VFloat (Finite q) => negb (Qeq_bool q 0)
  | VFloat _ => true
  | VStr s => negb (String.eqb s "")
  | VList l => match l with [] => false | _ => true end
  | VDict d => match d with [] => false | _ => true end
  end.

(** [not d] for an optional payload: true for [None] and for the empty dict. *)
Definition py_not (d : option dict) : bool :=
  match d with
  | None => true
  | Some m => bool_decide (size m = 0%nat)
  end.

(** [key in d] *)
Definition has_key (key : string) (d : dict) : bool :=
  bool_decide (is_Some (d !! key)).

(** [d.get(key, default)] *)
Definition dict_get (d : dict) (key : string) (default : value) : value :=
  match d !! key with Some v => v | None => default end.

(** Lookup in a dict literal of the source. *)
Fixpoint assoc {A : Type} (key : string) (table : list (string * A)) : option A :=
  match table with
  | [] => None
  | (k, v) :: rest => if String.eqb key k then Some v else assoc key rest
  end.

(** ** Python string methods on ASCII text *)

Module PyStr.

Abbreviation chars := list_ascii_of_string.
Abbreviation text := string_of_list_ascii.

(** [str.isspace] on one ASCII character: TAB..CR, FS..US and the blank. *)
Definition is_space (c : ascii) : bool :=
  let n := nat_of_ascii c in
  ((9 <=? n)%nat && (n <=? 13)%nat) || ((28 <=? n)%nat && (n <=? 32)%nat).

Definition upper_char (c : ascii) : ascii :=
  let n := nat_of_ascii c in
  if (97 <=? n)%nat && (n <=? 122)%nat then ascii_of_nat (n - 32) else c.

Fixpoint lstrip_chars (l : list ascii) : list ascii :=
  match l with
  | [] => []
  | c :: r => if is_space c then lstrip_chars r else l
  end.

Definition rstrip_chars (l : list ascii) : list ascii :=
  rev (lstrip_chars (rev l)).

Definition strip_chars (l : list ascii) : list ascii :=
  rstrip_chars (lstrip_chars l).

Definition ends_with (l suf : list ascii) : bool :=
  bool_decide (drop (length l - length suf) l = suf).

Definition starts_with (l pre : list ascii) : bool :=
  bool_decide (take (length pre) l = pre).

(** [s.strip()] *)
Definition strip (s : string) : string := text (strip_chars (chars s)).

(** [s.upper()] *)
Definition upper (s : string) : string := text (map upper_char (chars s)).

(** [s.endswith(suffix)] *)
Definition endswith (s suffix : string) : bool :=
  ends_with (chars s) (chars suffix).

(** [s.startswith(prefix)] *)
Definition startswith (s prefix : string) : bool :=
  starts_with (chars s) (chars prefix).

(** [s[:-n]] for a positive [n]: everything but the last [n] characters, the
    empty string when [s] is shorter than [n]. *)
Definition drop_last (n : nat) (s : string) : string :=
  text (take (length (chars s) - n) (chars s)).

(** A name without a dot and without white space: a bare ticker such as
    [RELIANCE], [M&M] or [BAJAJ-AUTO]. *)
Definition plain_name (s : string) : bool :=
  forallb (fun c => negb (is_space c) && negb (Ascii.eqb c ".")) (chars s).

End PyStr.

(** ** [data_normalizer.py] *)

Module Normalizer.

(** *** [DataNormalizer.merge_data_sources] *)

(** The loop condition
    [key not in merged or merged[key] is None or merged[key] == 0]. *)
Definition needs_fill (merged : dict) (key : string) : bool :=
  match merged !! key with
  | None => true
  | Some v => is_none v || eq_zero v
  end.

(** One iteration of [for key, value in fallback_data.items()]. *)
Definition fill_step (key : string) (v : value) (merged : dict) : dict :=
  if needs_fill merged key then <[key := v]> merged else merged.

Definition stamp (primary_data fallback_data merged : dict) : dict :=
  <["merged" := VBool true]>
    (<["fallback_source" := dict_get fallback_data "source" (VStr "unknown")]>
       (<["primary_source" := dict_get primary_data "source" (VStr "unknown")]>
          merged)).

Definition merge_data_sources (primary_data fallback_data : option dict)
  : option dict :=
  match primary_data with
  | None => fallback_data
  | Some p =>
      if py_not (Some p) || has_key "error" p then fallback_data
      else
        match fallback_data with
        | None => primary_data
        | Some f =>
            if py_not (Some f) || has_key "error" f then primary_data
            else Some (stamp p f (map_fold fill_step p f))
        end
  end.

(** A payload that [merge_data_sources] passes over: [None], the empty dict,
    or one carrying the ["error"] marker. *)
Definition unusable (d : option dict) : bool :=
  match d with
  | None => true
  | Some m => py_not (Some m) || has_key "error" m
  end.

Definition provenance_keys : list string :=
  ["primary_source"; "fallback_source"; "merged"].

(** The payloads of the fill-only-empty example. *)
Definition example_primary : dict :=
  <["a" := VInt 5]> (<["b" := VInt 0]> (<["c" := VNone]> ∅)).

Definition example_fallback : dict :=
  <["a" := VInt 9]> (<["b" := VInt 9]> (<["c" := VInt 9]> (<["d" := VInt 9]> ∅))).

Definition example_merged : dict :=
  <["a" := VInt 5]> (<["b" := VInt 9]> (<["c" := VInt 9]> (<["d" := VInt 9]>
  (<["primary_source" := VStr "unknown"]>
  (<["fallback_source" := VStr "unknown"]>
  (<["merged" := VBool true]> ∅)))))).

(** *** Symbol routing: [DataNormalizer._normalize_symbol] *)

Definition symbol_mappings : list (string * string) :=
  [ ("NIFTY", "NIFTY"); ("NIFTY50", "NIFTY"); ("^NSEI", "NIFTY");
    ("NIFTY 50", "NIFTY"); ("SENSEX", "SENSEX"); ("^BSESN", "SENSEX");
    ("BANKNIFTY", "BANKNIFTY"); ("NIFTY BANK", "BANKNIFTY");
    ("^NSEBANK", "BANKNIFTY") ].

Definition _normalize_symbol (symbol : string) : string :=
  if String.eqb symbol "" then ""
  else
    let symbol := PyStr.upper (PyStr.strip symbol) in
    match assoc symbol symbol_mappings with
    | Some canonical => canonical
    | None =>
        if PyStr.endswith symbol ".NS" then PyStr.drop_last 3 symbol
        else if PyStr.endswith symbol ".NSE" then PyStr.drop_last 4 symbol
        else if PyStr.endswith symbol ".BO" then PyStr.drop_last 3 symbol
        else if PyStr.endswith symbol ".BSE" then PyStr.drop_last 4 symbol
        else symbol
    end.

(** *** Safe coercions *)

(** [float(n)] for an integer raises [OverflowError] from this magnitude on. *)
Definition float_int_bound : Z := (2 ^ 1024 - 2 ^ 970)%Z.

(** The integer of at most 53 significant bits nearest to [n], the even one
    of two that are equally near: what [float(n)] holds below the bound. *)
Definition sig53 (n : Z) : Z :=
  let m := Z.abs n in
  if (m <? 2 ^ 53)%Z then n
  else
    let k := (Z.log2 m - 52)%Z in
    let q := (m / 2 ^ k)%Z in
    let r := (m mod 2 ^ k)%Z in
    let half := (2 ^ (k - 1))%Z in
    let q := if (half <? r)%Z || ((r =? half)%Z && Z.odd q) then (q + 1)%Z else q in
    (Z.sgn n * (q * 2 ^ k))%Z.

(** Truncation towards zero. *)
Definition int_of_float (q : Q) : Z :=
  if Qle_bool 0 q then Qfloor q else Qceiling q.

(** [int(x)] for a float [x] *)
Definition py_int (x : pyfloat) : outcome Z :=
  match x with
  | Finite q => Ok (int_of_float q)
  | Infinity _ => Raise OverflowError
  | NaN => Raise ValueError
  end.

Section Coercions.

(** [float(s)] for a string [s]: the float read (an infinity for ["inf"] or
    ["1e999"], NaN for ["nan"]), or [None] where Python raises [ValueError].
    The grammar is the interpreter's. *)
Variable float_of_str : string -> option pyfloat.

(** [float(value)] *)
Definition py_float (v : value) : outcome pyfloat :=
  match v with
  | VNone => Raise TypeError
  | VBool b => Ok (Finite (if b then 1%Q else 0%Q))
  | VInt z =>
      if (Z.abs z <? float_int_bound)%Z then Ok (Finite (inject_Z (sig53 z)))
      else Raise OverflowError
  | VFloat x => Ok x
  | VStr s =>
      match float_of_str s with
      | Some x => Ok x
      | None => Raise ValueError
      end
  | VList _ => Raise TypeError
  | VDict _ => Raise TypeError
  end.

(** [except (ValueError, TypeError)] *)
Definition caught (e : exn) : bool :=
  match e with
  | ValueError => true
  | TypeError => true
  | _ => false
  end.

(** [try: ... except (ValueError, TypeError): return default]; any other
    exception leaves the function. *)
Definition or_default {A : Type} (default : A) (r : outcome A) : outcome A :=
  match r with
  | Ok a => Ok a
  | Raise e => if caught e then Ok default else Raise e
  end.

Definition _safe_float (v : value) : outcome pyfloat :=
  if is_none v then Ok (Finite 0)
  else or_default (Finite 0) (py_float v).

Definition _safe_int (v : value) : outcome Z :=
  if is_none v then Ok 0%Z
  else or_default 0%Z (obind (py_float v) py_int).

(** *** [DataNormalizer.normalize_price_data] *)

Record NormalizedPrice : Type := {
  symbol : string;
  price : pyfloat;
  change : pyfloat;
  change_percent : pyfloat;
  open : pyfloat;
  high : pyfloat;
  low : pyfloat;
  volume : Z;
  timestamp : value;
  source : value;
  market_state : value;
  previous_close : option pyfloat;
  market_cap : option pyfloat;
  pe_ratio : option pyfloat;
  additional_data : option dict
}.

Definition known_price_keys : list string :=
  [ "symbol"; "price"; "change"; "change_percent"; "open";
    "high"; "low"; "volume"; "timestamp"; "market_state";
    "previous_close"; "market_cap"; "pe_ratio"; "source" ].

(** An exception anywhere in the body ends in [except Exception: return None]. *)
Definition attempt {A : Type} (r : outcome A) : option A :=
  match r with
  | Ok a => Some a
  | Raise _ => None
  end.

(** [self._normalize_symbol(raw_data.get("symbol", ""))]: a falsy value gives
    [""]; a truthy value that is not a string has no [strip] method. *)
Definition symbol_of (v : value) : outcome string :=
  if negb (truthy v) then Ok ""
  else
    match v with
    | VStr s => Ok (_normalize_symbol s)
    | _ => Raise AttributeError
    end.

Definition bag_or_none (d : dict) : option dict :=
  if bool_decide (size d = 0%nat) then None else Some d.

(** [now_iso] is [datetime.now().isoformat()] at the time of the call. *)
Definition normalize_price_data (now_iso : string) (raw_data : dict)
  : option NormalizedPrice :=
  if has_key "error" raw_data then None
  else
    let src := dict_get raw_data "source" (VStr "unknown") in
    sym ← attempt (symbol_of (dict_get raw_data "symbol" (VStr "")));
    p ← attempt (_safe_float (dict_get raw_data "price" (VInt 0)));
    ch ← attempt (_safe_float (dict_get raw_data "change" (VInt 0)));
    chp ← attempt (_safe_float (dict_get raw_data "change_percent" (VInt 0)));
    op ← attempt (_safe_float (dict_get raw_data "open" (VInt 0)));
    hi ← attempt (_safe_float (dict_get raw_data "high" (VInt 0)));
    lo ← attempt (_safe_float (dict_get raw_data "low" (VInt 0)));
    vol ← attempt (_safe_int (dict_get raw_data "volume" (VInt 0)));
    let ts := dict_get raw_data "timestamp" (VStr now_iso) in
    let ms := dict_get raw_data "market_state" (VStr "unknown") in
    pc ← attempt (_safe_float (dict_get raw_data "previous_close" VNone));
    mc ← attempt (_safe_float (dict_get raw_data "market_cap" VNone));
    pe ← attempt (_safe_float (dict_get raw_data "pe_ratio" VNone));
    let extra :=
      filter (fun kv : string * value => kv.1 ∉ known_price_keys) raw_data in
    Some {| symbol := sym; price := p; change := ch; change_percent := chp;
            open := op; high := hi; low := lo; volume := vol;
            timestamp := ts; source := src; market_state := ms;
            previous_close := Some pc; market_cap := Some mc;
            pe_ratio := Some pe; additional_data := bag_or_none extra |}.

End Coercions.

(** *** [DataNormalizer.validate_data_quality] *)

Record NormalizedHistoricalData : Type := {
  hist_symbol : string;
  hist_period : value;
  hist_interval : value;
  hist_data : list dict;
  hist_count : Z;
  hist_source : value;
  hist_timestamp : value
}.

Inductive quality_input : Type :=
| OfPrice (data : NormalizedPrice)
| OfHistorical (data : NormalizedHistoricalData)
| OfDict (data : dict).

Record quality_report : Type := {
  quality_score : Z;
  issues : list string;
  is_valid : bool
}.

(** The running pair [(quality_score, issues)] and one guarded deduction. *)
Definition deduct (cond : bool) (points : Z) (issue : string)
    (st : Z * list string) : Z * list string :=
  if cond then ((st.1 - points)%Z, (st.2 ++ [issue])%list) else st.

(** [point.get("timestamp")] is truthy. *)
Definition has_timestamp (point : dict) : bool :=
  truthy (dict_get point "timestamp" VNone).

(** The float literal [0.9] is [nine_tenths / 2^53]. *)
Definition nine_tenths : Z := 8106479329266893%Z.

(** [len(timestamps) < data.count * 0.9]. The count is turned into a float,
    which raises from [float_int_bound] on; the product of the two floats is
    rounded to 53 significant bits; the integer on the left is compared with
    that float exactly. Both sides are scaled by 2^53 here. *)
Definition too_few_timestamps (stamped : nat) (count : Z) : outcome bool :=
  if (Z.abs count <? float_int_bound)%Z then
    Ok (Z.of_nat stamped * 2 ^ 53 <? sig53 (sig53 count * nine_tenths))%Z
  else Raise OverflowError.

(** [x <= 0] for a float [x] *)
Definition le_zero (x : pyfloat) : bool :=
  match x with
  | Finite q => Qle_bool q 0
  | Infinity negative => negative
  | NaN => false
  end.

(** [abs(x) > bound] for a float [x] *)
Definition abs_exceeds (x : pyfloat) (bound : Q) : bool :=
  match x with
  | Finite q => negb (Qle_bool (Qabs q) bound)
  | Infinity _ => true
  | NaN => false
  end.

Definition score_price (data : NormalizedPrice) : Z * list string :=
  let st := (100%Z, []) in
  let st := deduct (le_zero (price data)) 30 "Invalid price" st in
  let st := deduct (volume data <=? 0)%Z 10 "Zero volume" st in
  let st := deduct (negb (truthy (timestamp data))) 20 "Missing timestamp" st in
  deduct (abs_exceeds (change_percent data) 20) 5 "High volatility" st.

Definition score_historical (data : NormalizedHistoricalData)
  : outcome (Z * list string) :=
  let st := (100%Z, []) in
  let st :=
    if (hist_count data =? 0)%Z then (0%Z, (st.2 ++ ["No historical data"])%list)
    else deduct (hist_count data <? 10)%Z 20 "Insufficient data points" st in
  let timestamps := filter (fun p => Is_true (has_timestamp p)) (hist_data data) in
  obind (too_few_timestamps (length timestamps) (hist_count data)) (fun too_few =>
  Ok (deduct too_few 15 "Missing timestamps" st)).

(** [str(e)] for the one exception the checks can raise. *)
Definition overflow_text : string := "int too large to convert to float".

(** [DataNormalizer.validate_data_quality]; an exception in the checks ends
    in the report of the [except] clause. *)
Definition validate_data_quality (data : quality_input) : quality_report :=
  let scored :=
    match data with
    | OfPrice p => Ok (score_price p)
    | OfHistorical h => score_historical h
    | OfDict _ => Ok (100%Z, [])
    end in
  match scored with
  | Ok st =>
      {| quality_score := Z.max 0 st.1;
         issues := st.2;
         is_valid := (50 <=? st.1)%Z |}
  | Raise _ =>
      {| quality_score := 0;
         issues := ["Validation error: " +:+ overflow_text];
         is_valid := false |}
  end.

End Normalizer.

(** ** [cache_manager.py] *)

Module Cache.

(** Extra parameters ([**kwargs]) as the repository passes them: strings
    ([period], [interval]) and integers ([count]). *)
Inductive kwarg : Type :=
| KStr (s : string)
| KInt (z : Z).

(** [f"{v}"] *)
Definition format_kwarg (v : kwarg) : string :=
  match v with
  | KStr s => s
  | KInt z => pretty z
  end.

(** [sorted(kwargs.items())]: the keys of a dict are distinct, so the order
    is the order of the keys. *)
Fixpoint insert_sorted (kv : string * kwarg) (l : list (string * kwarg))
  : list (string * kwarg) :=
  match l with
  | [] => [kv]
  | kv' :: rest =>
      if String.leb kv.1 kv'.1 then kv :: l else kv' :: insert_sorted kv rest
  end.

Definition sorted_items (kwargs : list (string * kwarg)) : list (string * kwarg) :=
  foldr insert_sorted [] kwargs.

(** ["|".join(parts)] *)
Fixpoint join_bar (parts : list string) : string :=
  match parts with
  | [] => ""
  | [p] => p
  | p :: rest => p +:+ "|" +:+ join_bar rest
  end.

(** [CacheManager._get_cache_key]. The source names an entry by the MD5
    digest of [key_string]; the digest is taken to be injective, and the model
    names the entry by the string that is hashed. *)
Definition _get_cache_key (prefix symbol : string)
    (kwargs : list (string * kwarg)) : string :=
  let key_parts :=
    ([prefix; symbol]
       ++ map (fun kv => kv.1 +:+ "=" +:+ format_kwarg kv.2) (sorted_items kwargs))%list in
  join_bar key_parts.

(** The parameters of [_get_cache_key] that come before [**kwargs]. *)
Definition key_parameters : list string := ["self"; "prefix"; "symbol"].

(** Whether [self._get_cache_key(cache_type, symbol, **kwargs)] can bind its
    arguments: an extra parameter named like one of [key_parameters] gives
    that parameter two values. *)
Definition binds (kwargs : list (string * kwarg)) : bool :=
  forallb (fun kv => negb (bool_decide (kv.1 ∈ key_parameters))) kwargs.

(** The call [self._get_cache_key(cache_type, symbol, **kwargs)]. *)
Definition cache_key_of (cache_type symbol : string)
    (kwargs : list (string * kwarg)) : outcome string :=
  if binds kwargs then Ok (_get_cache_key cache_type symbol kwargs)
  else Raise TypeError.

(** [self.ttl_settings], in seconds. *)
Definition ttl_settings : list (string * Z) :=
  [ ("real_time", 60); ("indices", 30); ("historical_1d", 3600);
    ("historical_intraday", 300); ("company_info", 86400);
    ("gainers_losers", 300); ("fii_dii", 3600); ("default", 600) ]%Z.

(** [self.ttl_settings.get(cache_type, self.ttl_settings["default"])] *)
Definition ttl (cache_type : string) : Z :=
  match assoc cache_type ttl_settings with
  | Some seconds => seconds
  | None => 600%Z
  end.

(** Instants are counted in microseconds, the resolution of [datetime],
    from [datetime.min]. *)
Definition seconds (n : Z) : Z := (n * 1000000)%Z.

(** [datetime.max], the last microsecond of the year 9999: a sum beyond it
    raises [OverflowError]. *)
Definition datetime_max : Z := (3652059 * 86400 * 1000000 - 1)%Z.

Section Store.

(** The payload type; the cache never looks inside it. *)
Context {D : Type}.

(** A cache entry. [cached_at] is the instant [datetime.fromisoformat] reads
    from the stored text; it is [None] where the field is missing or does not
    parse, and where the text carries a UTC offset, which makes the
    comparison with the naive [datetime.now()] raise. *)
Record cache_entry : Type := {
  cached_at : option Z;
  cache_type : string;
  symbol : string;
  kwargs : list (string * kwarg);
  data : D
}.

(** What [json.load] finds in a cache file: nothing it can read, or the
    entry that [json.dump] wrote (JSON text reads back as the payload it was
    written from). *)
Inductive cache_file : Type :=
| Unreadable
| Stored (entry : cache_entry).

(** The two tiers: [self.memory_cache] and the files of [self.cache_dir],
    each named by its cache key. *)
Record store : Type := {
  memory_cache : gmap string cache_entry;
  cache_dir : gmap string cache_file
}.

(** [CacheManager._is_cache_valid] at the instant [now]. An expiry time
    beyond [datetime_max] raises inside the [try] block, and the entry counts
    as invalid. *)
Definition _is_cache_valid (now : Z) (cache_data : cache_entry)
    (cache_type : string) : bool :=
  match cached_at cache_data with
  | Some cached_time =>
      let expiry_time := (cached_time + seconds (ttl cache_type))%Z in
      if (expiry_time <=? datetime_max)%Z then (now <? expiry_time)%Z
      else false
  | None => false
  end.

(** [CacheManager.get] at the instant [now]: the payload found, if any, and
    the store it leaves behind. [kwargs] is what Python has bound to
    [**kwargs]: a call that passes [self], [cache_type] or [symbol] a second
    time raises before the body runs. A key that cannot be computed and an
    unreadable file raise inside the [try] block: [None] is returned and the
    store stays as it is. *)
Definition get (now : Z) (cache_type symbol : string)
    (kwargs : list (string * kwarg)) (st : store) : option D * store :=
  match cache_key_of cache_type symbol kwargs with
  | Raise _ => (None, st)
  | Ok cache_key =>
  let check_file (st : store) : option D * store :=
    match cache_dir st !! cache_key with
    | None => (None, st)
    | Some Unreadable => (None, st)
    | Some (Stored cache_data) =>
        if _is_cache_valid now cache_data cache_type then
          (Some (data cache_data),
           {| memory_cache := <[cache_key := cache_data]> (memory_cache st);
              cache_dir := cache_dir st |})
        else
          (None,
           {| memory_cache := memory_cache st;
              cache_dir := delete cache_key (cache_dir st) |})
    end in
  match memory_cache st !! cache_key with
  | Some cache_data =>
      if _is_cache_valid now cache_data cache_type then
        (Some (data cache_data), st)
      else
        check_file {| memory_cache := delete cache_key (memory_cache st);
                      cache_dir := cache_dir st |}
  | None => check_file st
  end
  end.

(** How the file write of [set] ends. *)
Inductive write_outcome : Type :=
| Written
| OpenFailed
| DumpFailed.

(** [CacheManager.set] at the instant [now]; [kwargs] is as for [get], with
    [data] a further name that cannot occur in it. A key that cannot be
    computed ends in [False] before anything is written. Otherwise the memory
    tier is written first; the file write may fail, in which case [False] is
    returned. *)
Definition set (now : Z) (w : write_outcome) (cache_type symbol : string)
    (payload : D) (kwargs : list (string * kwarg)) (st : store) : bool * store :=
  match cache_key_of cache_type symbol kwargs with
  | Raise _ => (false, st)
  | Ok cache_key =>
  let cache_entry :=
    {| cached_at := Some now; cache_type := cache_type; symbol := symbol;
       kwargs := kwargs; data := payload |} in
  let memory := <[cache_key := cache_entry]> (memory_cache st) in
  match w with
  | Written =>
      (true, {| memory_cache := memory;
                cache_dir := <[cache_key := Stored cache_entry]> (cache_dir st) |})
  | OpenFailed =>
      (false, {| memory_cache := memory; cache_dir := cache_dir st |})
  | DumpFailed =>
      (false, {| memory_cache := memory;
                 cache_dir := <[cache_key := Unreadable]> (cache_dir st) |})
  end
  end.

(** The filter of [invalidate]:
    [(cache_type is None or entry["cache_type"] == cache_type) and
     (symbol is None or entry["symbol"] == symbol)]. *)
Definition matches (type_filter symbol_filter : option string)
    (e : cache_entry) : bool :=
  match type_filter with
  | None => true
  | Some t => String.eqb (cache_type e) t
  end
  &&
  match symbol_filter with
  | None => true
  | Some s => String.eqb (symbol e) s
  end.

(** One iteration of [for key in keys_to_remove]. *)
Definition remove_key (st : store) (key : string) : store :=
  {| memory_cache := delete key (memory_cache st);
     cache_dir := delete key (cache_dir st) |}.

(** [CacheManager.invalidate] *)
Definition invalidate (type_filter symbol_filter : option string)
    (st : store) : store :=
  match type_filter, symbol_filter with
  | None, None => {| memory_cache := ∅; cache_dir := ∅ |}
  | _, _ =>
      let keys_to_remove :=
        (filter (fun kv : string * cache_entry =>
                   Is_true (matches type_filter symbol_filter kv.2))
                (map_to_list (memory_cache st))).*1 in
      foldl remove_key st keys_to_remove
  end.

End Store.

Arguments cache_entry D : clear implicits.
Arguments cache_file D : clear implicits.
Arguments store D : clear implicits.

End Cache.

(** ** Wall-clock time and the trading window *)

Module Clock.

(** A naive [datetime]: the day as its proleptic Gregorian ordinal
    ([toordinal()]) and the time of day. *)
Record datetime : Type := {
  ordinal : Z;
  hour : Z;
  minute : Z;
  second : Z;
  microsecond : Z
}.

(** [dt.weekday()]: Monday is 0 and Sunday is 6. *)
Definition weekday (dt : datetime) : Z := ((ordinal dt + 6) mod 7)%Z.

(** [dt.replace(hour=h, minute=m, second=s, microsecond=us)] *)
Definition replace (dt : datetime) (h m s us : Z) : datetime :=
  {| ordinal := ordinal dt; hour := h; minute := m; second := s;
     microsecond := us |}.

Fixpoint lex_le (a b : list Z) : bool :=
  match a, b with
  | x :: a', y :: b' => (x <? y)%Z || ((x =? y)%Z && lex_le a' b')
  | _, _ => true
  end.

Definition fields (dt : datetime) : list Z :=
  [ordinal dt; hour dt; minute dt; second dt; microsecond dt].

(** [a <= b] on naive datetimes compares the fields in order. *)
Definition le (a b : datetime) : bool := lex_le (fields a) (fields b).

End Clock.

(** ** [base_client.py], [yahoo_client.py], [nse_client.py] *)

(** What an adapter does to the outside world. *)
Inductive event : Type :=
| HttpGet (url : string) (params : list (string * string))
| LibraryQuery (ticker period interval : string).

(** [str(e)]: the message of an exception; [runtime_text] stands for the
    texts the interpreter gives to its own exceptions. *)
Definition exn_str (runtime_text : exn -> string) (e : exn) : string :=
  match e with
  | Raised msg => msg
  | LibraryError msg => msg
  | _ => runtime_text e
  end.

Fixpoint omap_list {A B : Type} (f : A -> outcome B) (l : list A)
  : outcome (list B) :=
  match l with
  | [] => Ok []
  | x :: rest =>
      obind (f x) (fun y => obind (omap_list f rest) (fun ys => Ok (y :: ys)))
  end.

Module BaseClient.

Definition valid_periods : list string :=
  ["1d"; "5d"; "1mo"; "3mo"; "6mo"; "1y"; "2y"; "5y"; "10y"; "ytd"; "max"].

Definition valid_intervals : list string :=
  ["1m"; "2m"; "5m"; "15m"; "30m"; "60m"; "90m"; "1h"; "1d"; "5d"; "1wk";
   "1mo"; "3mo"].

Definition validate_period (period : string) : bool :=
  bool_decide (period ∈ valid_periods).

Definition validate_interval (interval : string) : bool :=
  bool_decide (interval ∈ valid_intervals).

(** [{"error": str(e), "symbol": symbol}] *)
Definition error_payload (msg symbol : string) : dict :=
  <["error" := VStr msg]> (<["symbol" := VStr symbol]> ∅).

End BaseClient.

Module Yahoo.
Import BaseClient.

Definition indian_indices : list (string * string) :=
  [ ("NIFTY", "^NSEI"); ("NIFTY50", "^NSEI"); ("SENSEX", "^BSESN");
    ("BANKNIFTY", "^NSEBANK"); ("NIFTYIT", "^CNXIT");
    ("NIFTYPHARMA", "^CNXPHARMA"); ("NIFTYAUTO", "^CNXAUTO");
    ("NIFTYMETAL", "^CNXMETAL"); ("NIFTYREALTY", "^CNXREALTY") ].

(** [YahooFinanceClient.normalize_symbol] *)
Definition normalize_symbol (symbol : string) : string :=
  let symbol := PyStr.upper (PyStr.strip symbol) in
  match assoc symbol indian_indices with
  | Some index => index
  | None =>
      if negb (PyStr.endswith symbol ".NS") && negb (PyStr.startswith symbol "^")
      then symbol +:+ ".NS"
      else symbol
  end.

(** [YahooFinanceClient.is_market_open], with [now = datetime.now()]. *)
Definition is_market_open (now : Clock.datetime) : bool :=
  if (5 <=? Clock.weekday now)%Z then false
  else
    let market_open := Clock.replace now 9 15 0 0 in
    let market_close := Clock.replace now 15 30 0 0 in
    Clock.le market_open now && Clock.le now market_close.

(** One row of the frame that the library's [history] returns, for a frame
    whose cells hold numbers. *)
Record bar : Type := {
  bar_timestamp : string;
  bar_open : Q;
  bar_high : Q;
  bar_low : Q;
  bar_close : Q;
  bar_volume : Z
}.

Definition bar_value (row : bar) : value :=
  VDict [ ("timestamp", VStr (bar_timestamp row));
          ("open", VFloat (Finite (bar_open row)));
          ("high", VFloat (Finite (bar_high row)));
          ("low", VFloat (Finite (bar_low row)));
          ("close", VFloat (Finite (bar_close row)));
          ("volume", VInt (bar_volume row)) ].

Section History.

Variable runtime_text : exn -> string.

(** [yf.Ticker(ticker).history(period=..., interval=...)]: the rows fetched
    over the network, or the exception the library raises. *)
Variable history : string -> string -> string -> outcome (list bar).

(** [YahooFinanceClient.get_historical_data]: the payload and the calls that
    left the process. *)
Definition get_historical_data (symbol period interval : string)
  : dict * list event :=
  if negb (validate_period period) then
    (error_payload ("Invalid period: " +:+ period) symbol, [])
  else if negb (validate_interval interval) then
    (error_payload ("Invalid interval: " +:+ interval) symbol, [])
  else
    let normalized_symbol := normalize_symbol symbol in
    let calls := [LibraryQuery normalized_symbol period interval] in
    match history normalized_symbol period interval with
    | Raise e => (error_payload (exn_str runtime_text e) symbol, calls)
    | Ok [] =>
        (error_payload ("No historical data available for " +:+ symbol) symbol,
         calls)
    | Ok hist =>
        let rows := map bar_value hist in
        (<["symbol" := VStr symbol]>
         (<["normalized_symbol" := VStr normalized_symbol]>
         (<["period" := VStr period]>
         (<["interval" := VStr interval]>
         (<["data" := VList rows]>
         (<["count" := VInt (Z.of_nat (length rows))]>
         (<["source" := VStr "yahoo_finance"]> ∅)))))),
         calls)
    end.

End History.

End Yahoo.

Module NSE.
Import BaseClient.

Definition base_url : string := "https://www.nseindia.com/api".

Definition nse_indices : list (string * string) :=
  [ ("NIFTY", "NIFTY 50"); ("NIFTY50", "NIFTY 50"); ("BANKNIFTY", "NIFTY BANK");
    ("NIFTYIT", "NIFTY IT"); ("NIFTYPHARMA", "NIFTY PHARMA");
    ("NIFTYAUTO", "NIFTY AUTO"); ("NIFTYMETAL", "NIFTY METAL");
    ("NIFTYREALTY", "NIFTY REALTY") ].

(** [NSEClient.normalize_symbol] *)
Definition normalize_symbol (symbol : string) : string :=
  let symbol := PyStr.upper (PyStr.strip symbol) in
  if PyStr.endswith symbol ".NS" then PyStr.drop_last 3 symbol
  else if PyStr.endswith symbol ".NSE" then PyStr.drop_last 4 symbol
  else symbol.

(** [NSEClient.is_market_open], with [now = datetime.now()]. *)
Definition is_market_open (now : Clock.datetime) : bool :=
  if (5 <=? Clock.weekday now)%Z then false
  else
    let market_open := Clock.replace now 9 15 0 0 in
    let market_close := Clock.replace now 15 30 0 0 in
    Clock.le market_open now && Clock.le now market_close.

(** An HTTP response: its status and what [response.json()] gives. *)
Record http_response : Type := {
  status : Z;
  json : outcome value
}.

(** [for item in v] *)
Definition iter_value (v : value) : outcome (list value) :=
  match v with
  | VList l => Ok l
  | VStr s => Ok (map (fun c => VStr (String c "")) (PyStr.chars s))
  | VDict d => Ok (map (fun kv => VStr kv.1) d)
  | _ => Raise TypeError
  end.

(** [v[i]] for a literal index [i] *)
Definition index_value (v : value) (i : nat) : outcome value :=
  match v with
  | VList l =>
      match l !! i with Some x => Ok x | None => Raise IndexError end
  | VStr s =>
      match PyStr.chars s !! i with
      | Some c => Ok (VStr (String c ""))
      | None => Raise IndexError
      end
  | VDict _ => Raise KeyError
  | _ => Raise TypeError
  end.

Section History.

Variable runtime_text : exn -> string.
Variable float_of_str : string -> option pyfloat.

(** [session.get(url, params=params)]: the response, or the exception of a
    failed connection. *)
Variable http_get : string -> list (string * string) -> outcome http_response.

(** [NSEClient._get_session]: [session] tells whether [self.session] is set.
    A new session visits the home page for cookies; a failure there is only
    logged. *)
Definition _get_session (session : bool) : bool * list event :=
  if session then (true, [])
  else (true, [HttpGet "https://www.nseindia.com" []]).

Definition parse_item (item : value) : outcome value :=
  obind (index_value item 0) (fun ts =>
  obind (index_value item 1) (fun raw =>
  obind (Normalizer.py_float float_of_str raw) (fun p =>
  Ok (VDict [("timestamp", ts); ("price", VFloat p)])))).

(** [NSEClient._parse_historical_data] *)
Definition _parse_historical_data (data : value)
    (symbol period interval : string) : dict :=
  let parsed :=
    match data with
    | VDict d =>
        let chart_data :=
          match assoc "grapthData" d with Some v => v | None => VList [] end in
        obind (iter_value chart_data) (omap_list parse_item)
    | _ => Raise AttributeError
    end in
  match parsed with
  | Ok parsed_data =>
      <["symbol" := VStr symbol]>
      (<["period" := VStr period]>
      (<["interval" := VStr interval]>
      (<["data" := VList parsed_data]>
      (<["count" := VInt (Z.of_nat (length parsed_data))]>
      (<["source" := VStr "nse"]>
      (<["note" := VStr "NSE provides limited historical data"]> ∅))))))
  | Raise e => <["error" := VStr (exn_str runtime_text e)]> ∅
  end.

(** [NSEClient.get_historical_data]: the payload, whether a session is now
    held, and the calls that left the process. *)
Definition get_historical_data (session : bool)
    (symbol period interval : string) : dict * bool * list event :=
  let '(session, cookie_calls) := _get_session session in
  let normalized_symbol := normalize_symbol symbol in
  let url := base_url +:+ "/chart-databyindex" in
  let params :=
    [("index", normalized_symbol +:+ "EQN"); ("indices", "true")] in
  let calls := (cookie_calls ++ [HttpGet url params])%list in
  match http_get url params with
  | Raise e => (error_payload (exn_str runtime_text e) symbol, session, calls)
  | Ok response =>
      if (status response =? 200)%Z then
        match json response with
        | Raise e =>
            (error_payload (exn_str runtime_text e) symbol, session, calls)
        | Ok data =>
            (_parse_historical_data data symbol period interval, session, calls)
        end
      else
        (error_payload ("No historical data available for " +:+ symbol) symbol,
         session, calls)
  end.

End History.

End NSE.

(** ** [data_sources.py] *)

Module Orchestrator.

(** [self.source_priority] *)
Definition source_priority : list (string * list string) :=
  [ ("real_time", ["nse"; "yahoo"]);
    ("historical", ["yahoo"; "nse"]);
    ("indices", ["nse"; "yahoo"]);
    ("company_info", ["yahoo"; "nse"]) ].

Definition priority_of (category : string) : list string :=
  match assoc category source_priority with
  | Some sources => sources
  | None => []
  end.

(** The local variables of the source loop, and the adapters consulted so
    far, in order. *)
Record fetch : Type := {
  primary_data : option dict;
  fallback_data : option dict;
  consulted : list string
}.

Section RealTime.

Variable float_of_str : string -> option pyfloat.

(** The two adapters' [get_real_time_price]: the payload returned, or an
    exception escaping the adapter. *)
Variable nse_get_real_time_price : string -> outcome dict.
Variable yahoo_get_real_time_price : string -> outcome dict.

(** [data and "error" not in data] *)
Definition usable (data : dict) : bool :=
  negb (py_not (Some data)) && negb (has_key "error" data).

(** [for source in self.source_priority["real_time"]: ...]. A usable payload
    is stored and the [break] that follows ends the loop. *)
Fixpoint try_sources (sources : list string) (symbol : string) (st : fetch)
  : fetch :=
  match sources with
  | [] => st
  | source :: rest =>
      let call :=
        if String.eqb source "nse" then Some (nse_get_real_time_price symbol)
        else if String.eqb source "yahoo" then Some (yahoo_get_real_time_price symbol)
        else None in
      match call with
      | None => try_sources rest symbol st
      | Some result =>
          let st := {| primary_data := primary_data st;
                       fallback_data := fallback_data st;
                       consulted := (consulted st ++ [source])%list |} in
          match result with
          | Raise _ => try_sources rest symbol st
          | Ok data =>
              if usable data then
                match primary_data st with
                | None =>
                    {| primary_data := Some data;
                       fallback_data := fallback_data st;
                       consulted := consulted st |}
                | Some _ =>
                    {| primary_data := primary_data st;
                       fallback_data := Some data;
                       consulted := consulted st |}
                end
              else try_sources rest symbol st
          end
      end
  end.

Definition fresh : fetch :=
  {| primary_data := None; fallback_data := None; consulted := [] |}.

(** What one request leaves behind. *)
Record response : Type := {
  result : option Normalizer.NormalizedPrice;
  cache_after : option (Cache.store dict);
  sources_called : list string;
  cached_payload : option dict
}.

(** The part of [get_real_time_price] after the loop: merge with the fallback
    if there is one, write the cache, normalise. The merge of two usable
    payloads is never [None]; that branch is unreachable and only completes
    the match. *)
Definition conclude (t_set : Z) (now_iso : string) (w : Cache.write_outcome)
    (symbol : string) (use_cache : bool) (st : fetch)
    (cache_manager : option (Cache.store dict)) : response :=
  if negb (py_not (primary_data st)) then
    let merged :=
      if negb (py_not (fallback_data st)) then
        Normalizer.merge_data_sources (primary_data st) (fallback_data st)
      else primary_data st in
    match merged with
    | Some payload =>
        let written :=
          match cache_manager with
          | Some store =>
              if use_cache then
                (Some (Cache.set t_set w "real_time" symbol payload [] store).2,
                 Some payload)
              else (cache_manager, None)
          | None => (None, None)
          end in
        {| result := Normalizer.normalize_price_data float_of_str now_iso payload;
           cache_after := written.1;
           sources_called := consulted st;
           cached_payload := written.2 |}
    | None =>
        {| result := None; cache_after := cache_manager;
           sources_called := consulted st; cached_payload := None |}
    end
  else
    {| result := None; cache_after := cache_manager;
       sources_called := consulted st; cached_payload := None |}.

(** [IndianMarketDataAPI.get_real_time_price]. [cache_manager] is [None] when
    caching is disabled; [t_get] and [t_set] are the instants of the cache
    read and of the cache write, [now_iso] the text of [datetime.now()] that
    normalisation uses for a missing timestamp. *)
Definition get_real_time_price (t_get t_set : Z) (now_iso : string)
    (w : Cache.write_outcome) (symbol : string) (use_cache : bool)
    (cache_manager : option (Cache.store dict)) : response :=
  let lookup :=
    match cache_manager with
    | Some st =>
        if use_cache then
          let '(cached_data, st') := Cache.get t_get "real_time" symbol [] st in
          (cached_data, Some st')
        else (None, cache_manager)
    | None => (None, None)
    end in
  match lookup with
  | (Some cached_data, cache_manager) =>
      if negb (py_not (Some cached_data)) then
        {| result := Normalizer.normalize_price_data float_of_str now_iso cached_data;
           cache_after := cache_manager;
           sources_called := [];
           cached_payload := None |}
      else
        conclude t_set now_iso w symbol use_cache
          (try_sources (priority_of "real_time") symbol fresh) cache_manager
  | (None, cache_manager) =>
      conclude t_set now_iso w symbol use_cache
        (try_sources (priority_of "real_time") symbol fresh) cache_manager
  end.

End RealTime.

End Orchestrator.

(** ** Concrete inputs used by the examples below *)

Module Examples.

(** A Monday (ordinal 738886 is 2024-01-01) and the Saturday of that week,
    both at noon. *)
Definition monday_noon : Clock.datetime :=
  {| Clock.ordinal := 738886; Clock.hour := 12; Clock.minute := 0;
     Clock.second := 0; Clock.microsecond := 0 |}.

Definition saturday_noon : Clock.datetime :=
  {| Clock.ordinal := 738891; Clock.hour := 12; Clock.minute := 0;
     Clock.second := 0; Clock.microsecond := 0 |}.



(** An empty payload and a fallback with one field. *)
Definition empty_payload : dict := ∅.

Definition lone_fallback : dict := {[ "a" := VInt 9 ]}.

Definition empty_store : Cache.store value :=
  {| Cache.memory_cache := ∅; Cache.cache_dir := ∅ |}.

Definition entry_at (t : Z) (payload : value) : Cache.cache_entry value :=
  {| Cache.cached_at := Some t; Cache.cache_type := "real_time";
     Cache.symbol := "TCS"; Cache.kwargs := []; Cache.data := payload |}.

Definition tcs_key : string := Cache._get_cache_key "real_time" "TCS" [].


(** Both tiers hold the same entry written at instant 0. *)
Definition both_tiers : Cache.store value :=
  {| Cache.memory_cache := {[ tcs_key := entry_at 0 (VInt 1) ]};
     Cache.cache_dir := {[ tcs_key := Cache.Stored (entry_at 0 (VInt 1)) ]} |}.

(** Only the disk tier holds the entry, as after a restart. *)
Definition disk_only : Cache.store value :=
  {| Cache.memory_cache := ∅;
     Cache.cache_dir := {[ tcs_key := Cache.Stored (entry_at 0 (VInt 1)) ]} |}.

(** A raw quote that carries none of the optional fields. *)
Definition bare_quote : dict :=
  <["symbol" := VStr "TCS"]> (<["price" := VInt 100]> ∅).

(** Two adapters that both answer: the exchange scraper with a quote whose
    volume is zero, the library with a full quote. *)
Definition nse_quote : dict :=
  <["symbol" := VStr "RELIANCE"]> (<["price" := VFloat (Finite 2500)]>
  (<["volume" := VInt 0]> (<["source" := VStr "nse"]> ∅))).

Definition yahoo_quote : dict :=
  <["symbol" := VStr "RELIANCE"]> (<["price" := VFloat (Finite 2501)]>
  (<["volume" := VInt 1200]> (<["source" := VStr "yahoo_finance"]> ∅))).

Definition nse_answers (symbol : string) : outcome dict := Ok nse_quote.

Definition yahoo_answers (symbol : string) : outcome dict := Ok yahoo_quote.

Definition no_cache_yet : Cache.store dict :=
  {| Cache.memory_cache := ∅; Cache.cache_dir := ∅ |}.

Definition chart_url : string := "https://www.nseindia.com/api/chart-databyindex".

End Examples.

(** ** [CacheManager.cleanup_expired] *)

Module CacheSweep.
Import Cache.

Section Sweep.

Context {D : Type}.

(** [not self._is_cache_valid(cache_data, cache_data.get("cache_type", "default"))]:
    the sweep judges an entry by the category it carries. *)
Definition expired (now : Z) (e : cache_entry D) : bool :=
  negb (_is_cache_valid now e (cache_type e)).

(** The first loop and the deletions that follow it: the keys of the expired
    memory entries are collected, then deleted and counted one by one. *)
Definition sweep_memory (now : Z) (memory : gmap string (cache_entry D))
  : gmap string (cache_entry D) * nat :=
  let expired_keys :=
    (filter (fun kv : string * cache_entry D => Is_true (expired now kv.2))
            (map_to_list memory)).*1 in
  foldl (fun acc key => (delete key acc.1, S acc.2)) (memory, 0%nat) expired_keys.

(** The body of [for cache_file in self.cache_dir.glob("*.json")]: a file that
    does not load, or whose entry is expired, is unlinked and counted. *)
Definition sweep_file (now : Z)
    (acc : gmap string (cache_file D) * nat) (kf : string * cache_file D)
  : gmap string (cache_file D) * nat :=
  match kf.2 with
  | Unreadable => (delete kf.1 acc.1, S acc.2)
  | Stored e =>
      if expired now e then (delete kf.1 acc.1, S acc.2) else acc
  end.

(** What the sweep removes from the cache directory. *)
Definition stale_file (now : Z) (f : cache_file D) : bool :=
  match f with
  | Unreadable => true
  | Stored e => expired now e
  end.

(** [CacheManager.cleanup_expired] at the instant [now]: the number of
    entries removed and the store left behind. As in [get], deleting and
    unlinking are taken to succeed. *)
Definition cleanup_expired (now : Z) (st : store D) : nat * store D :=
  let '(memory, cleaned_memory) := sweep_memory now (memory_cache st) in
  let '(files, cleaned_count) :=
    foldl (sweep_file now) (cache_dir st, cleaned_memory)
      (map_to_list (cache_dir st)) in
  (cleaned_count, {| memory_cache := memory; cache_dir := files |}).

End Sweep.

End CacheSweep.

(** ** The facade's derived utilities: [get_market_status], [search_symbols] *)

Module Facade.

(** [date.max.toordinal()]: adding days beyond it raises [OverflowError]. *)
Definition max_ordinal : Z := 3652059.

(** [dt + timedelta(days=n)] for a non-negative [n]. *)
Definition add_days (dt : Clock.datetime) (n : Z) : outcome Clock.datetime :=
  if (Clock.ordinal dt + n <=? max_ordinal)%Z then
    Ok {| Clock.ordinal := (Clock.ordinal dt + n)%Z;
          Clock.hour := Clock.hour dt; Clock.minute := Clock.minute dt;
          Clock.second := Clock.second dt;
          Clock.microsecond := Clock.microsecond dt |}
  else Raise OverflowError.

(** The dict that [get_market_status] returns. The two instants stand for the
    texts [isoformat()] gives them; [next_event_time] is [None] where the
    source finds no [next_time] among its locals. *)
Record market_status : Type := {
  is_open : bool;
  current_time : Clock.datetime;
  market_state : string;
  next_event : string;
  next_event_time : option Clock.datetime;
  trading_hours : string;
  trading_days : string
}.

Definition report (now : Clock.datetime) (open_now : bool)
    (next : option (string * Clock.datetime)) : market_status :=
  {| is_open := open_now;
     current_time := now;
     market_state := if open_now then "open" else "closed";
     next_event := match next with Some (ev, _) => ev | None => "market_close" end;
     next_event_time := match next with Some (_, t) => Some t | None => None end;
     trading_hours := "9:15 AM - 3:30 PM IST";
     trading_days := "Monday - Friday" |}.

(** [IndianMarketDataAPI.get_market_status]. [now] is the clock read of the
    method itself, [now_adapter] the one inside [is_market_open]. On a weekend
    only [next_open] is computed, which the returned dict does not use. An
    exception ends in the [{"error": ...}] payload, here [Raise]. *)
Definition get_market_status (now now_adapter : Clock.datetime)
  : outcome market_status :=
  let open_now := Yahoo.is_market_open now_adapter in
  if (5 <=? Clock.weekday now)%Z then
    let days_until_monday := (7 - Clock.weekday now)%Z in
    obind (add_days now days_until_monday) (fun _ =>
    Ok (report now open_now None))
  else if open_now then
    Ok (report now open_now (Some ("market_close", Clock.replace now 15 30 0 0)))
  else if ((Clock.hour now <? 9)
           || ((Clock.hour now =? 9) && (Clock.minute now <? 15)))%Z then
    Ok (report now open_now (Some ("market_open", Clock.replace now 9 15 0 0)))
  else
    obind (add_days now 1) (fun tomorrow =>
    Ok (report now open_now
          (Some ("market_open", Clock.replace tomorrow 9 15 0 0)))).

(** [common_stocks], in the order the dict literal lists them. *)
Definition common_stocks : list (string * string) :=
  [ ("RELIANCE", "Reliance Industries Limited");
    ("TCS", "Tata Consultancy Services Limited");
    ("HDFCBANK", "HDFC Bank Limited");
    ("ICICIBANK", "ICICI Bank Limited");
    ("INFY", "Infosys Limited");
    ("HDFC", "Housing Development Finance Corporation Limited");
    ("ITC", "ITC Limited");
    ("SBIN", "State Bank of India");
    ("BHARTIARTL", "Bharti Airtel Limited");
    ("KOTAKBANK", "Kotak Mahindra Bank Limited") ].

(** [needle in hay] on strings: [needle] starts at some position of [hay]. *)
Fixpoint contains_chars (hay needle : list ascii) : bool :=
  PyStr.starts_with hay needle
  || match hay with
     | [] => false
     | _ :: rest => contains_chars rest needle
     end.

Definition contains (hay needle : string) : bool :=
  contains_chars (PyStr.chars hay) (PyStr.chars needle).

(** [query in symbol or query in name.upper()] *)
Definition stock_matches (query : string) (stock : string * string) : bool :=
  contains stock.1 query || contains (PyStr.upper stock.2) query.

Definition stock_result (stock : string * string) : dict :=
  <["symbol" := VStr stock.1]>
    (<["name" := VStr stock.2]> (<["type" := VStr "equity"]> ∅)).

(** The loop of [search_symbols]: a match is appended, and the length of
    [results] is compared with [limit] after every stock, matching or not. *)
Fixpoint search_loop (query : string) (limit : Z)
    (stocks : list (string * string)) (results : list dict) : list dict :=
  match stocks with
  | [] => results
  | stock :: rest =>
      let results :=
        if stock_matches query stock
        then (results ++ [stock_result stock])%list
        else results in
      if (limit <=? Z.of_nat (length results))%Z then results
      else search_loop query limit rest results
  end.

(** [IndianMarketDataAPI.search_symbols] *)
Definition search_symbols (query : string) (limit : Z) : list dict :=
  search_loop (PyStr.upper query) limit common_stocks [].

End Facade.

(** ** Reading a request: what the cache and an adapter have to offer *)

Module Requests.

(** The payload an adapter call contributes: the one it returns, if that is
    not empty and carries no error marker; nothing if the call raises. *)
Definition answer (r : outcome dict) : option dict :=
  match r with
  | Ok data => if Orchestrator.usable data then Some data else None
  | Raise _ => None
  end.

(** The cached payload [get_real_time_price] returns from: a non-empty
    payload that [get] finds, where a cache manager exists and [use_cache]
    holds. *)
Definition cached_hit (t_get : Z) (symbol : string) (use_cache : bool)
    (cache_manager : option (Cache.store dict)) : option dict :=
  match cache_manager with
  | Some st =>
      if use_cache then
        match (Cache.get t_get "real_time" symbol [] st).1 with
        | Some d => if py_not (Some d) then None else Some d
        | None => None
        end
      else None
  | None => None
  end.

(** The cache as the read at the start of a request leaves it. *)
Definition cache_after_read (t_get : Z) (symbol : string) (use_cache : bool)
    (cache_manager : option (Cache.store dict)) : option (Cache.store dict) :=
  match cache_manager with
  | Some st =>
      if use_cache then Some (Cache.get t_get "real_time" symbol [] st).2
      else Some st
  | None => None
  end.

End Requests.

(** ** Further concrete inputs *)

Module Scenarios.

(** A Friday evening (2024-01-05, 18:00) and a Monday morning before the
    open (2024-01-01, 08:30). *)
Definition friday_evening : Clock.datetime :=
  {| Clock.ordinal := 738890; Clock.hour := 18; Clock.minute := 0;
     Clock.second := 0; Clock.microsecond := 0 |}.

Definition monday_early : Clock.datetime :=
  {| Clock.ordinal := 738886; Clock.hour := 8; Clock.minute := 30;
     Clock.second := 0; Clock.microsecond := 0 |}.

(** Adapters that fail: the exchange scraper with an error payload, the
    library with an exception that escapes it. *)
Definition nse_fails (symbol : string) : outcome dict :=
  Ok (BaseClient.error_payload "No data available" symbol).

Definition yahoo_raises (symbol : string) : outcome dict :=
  Raise (LibraryError "connection reset").

(** A store with an expired and a fresh entry of two categories in memory,
    and an unreadable file. *)
Definition fresh_entry : Cache.cache_entry value :=
  {| Cache.cached_at := Some (Cache.seconds 100);
     Cache.cache_type := "company_info"; Cache.symbol := "INFY";
     Cache.kwargs := []; Cache.data := VInt 3 |}.

Definition infy_key : string := Cache._get_cache_key "company_info" "INFY" [].

Definition mixed_store : Cache.store value :=
  {| Cache.memory_cache :=
       <[Examples.tcs_key := Examples.entry_at 0 (VInt 1)]>
         {[ infy_key := fresh_entry ]};
     Cache.cache_dir :=
       <[Examples.tcs_key := Cache.Stored (Examples.entry_at 0 (VInt 1))]>
         (<[infy_key := Cache.Stored fresh_entry]>
            {[ "broken" := Cache.Unreadable ]}) |}.

(** A cache that holds the exchange scraper's quote, written at instant 0. *)
Definition warm_cache : Cache.store dict :=
  (Cache.set 0 Cache.Written "real_time" "RELIANCE" Examples.nse_quote []
     Examples.no_cache_yet).2.

(** A library that returns one daily bar for every query. *)
Definition one_bar : Yahoo.bar :=
  {| Yahoo.bar_timestamp := "2024-01-01T00:00:00+05:30";
     Yahoo.bar_open := 100; Yahoo.bar_high := 110; Yahoo.bar_low := 95;
     Yahoo.bar_close := 105; Yahoo.bar_volume := 1000 |}.

Definition history_one_bar (ticker period interval : string)
  : outcome (list Yahoo.bar) := Ok [one_bar].

(** A series that declares five points. *)
Definition short_series : Normalizer.NormalizedHistoricalData :=
  {| Normalizer.hist_symbol := "TCS"; Normalizer.hist_period := VStr "5d";
     Normalizer.hist_interval := VStr "1d"; Normalizer.hist_data := [];
     Normalizer.hist_count := 5; Normalizer.hist_source := VStr "yahoo_finance";
     Normalizer.hist_timestamp := VStr "2024-01-01T12:00:00" |}.

End Scenarios.

(** * Properties *)

Module ClockFacts.
Import Clock.

Lemma weekday_replace (now : datetime) (h m s us : Z) :
  weekday (replace now h m s us) = weekday now.
Proof. reflexivity. Qed.

Lemma le_open_at_open (now : datetime) (h m s us : Z) :
  le (replace now h m s us) (replace now h m s us) = true.
Proof.
  unfold le, fields, replace; simpl.
  rewrite !Z.eqb_refl, !orb_true_r. reflexivity.
Qed.

Lemma window_at_open (now : datetime) :
  le (replace now 9 15 0 0) (replace now 9 15 0 0)
  && le (replace now 9 15 0 0) (replace now 15 30 0 0) = true.
Proof.
  unfold le, fields, replace; simpl.
  rewrite !Z.eqb_refl, !orb_true_r. reflexivity.
Qed.

Lemma window_at_close (now : datetime) :
  le (replace now 9 15 0 0) (replace now 15 30 0 0)
  && le (replace now 15 30 0 0) (replace now 15 30 0 0) = true.
Proof.
  unfold le, fields, replace; simpl.
  rewrite !Z.eqb_refl, !orb_true_r. reflexivity.
Qed.

(** C10. For both adapters the trading window is closed at both ends: on a
    weekday (Monday to Friday) [is_market_open] is true at exactly 09:15:00
    and at exactly 15:30:00, and it is false at every instant of a Saturday
    or a Sunday. *)
Theorem market_window_closed_ends (now : datetime) :
  ((weekday now < 5)%Z ->
     Yahoo.is_market_open (replace now 9 15 0 0) = true
     /\ Yahoo.is_market_open (replace now 15 30 0 0) = true
     /\ NSE.is_market_open (replace now 9 15 0 0) = true
     /\ NSE.is_market_open (replace now 15 30 0 0) = true)
  /\ ((weekday now = 5 \/ weekday now = 6)%Z ->
        Yahoo.is_market_open now = false /\ NSE.is_market_open now = false).
Proof.
  split.
  - intros Hwd.
    assert (Hday : forall h m s us,
               (5 <=? weekday (replace now h m s us))%Z = false)
      by (intros; rewrite weekday_replace; apply Z.leb_gt; exact Hwd).
    unfold Yahoo.is_market_open, NSE.is_market_open.
    rewrite !Hday.
    pose proof (window_at_open now) as Ho.
    pose proof (window_at_close now) as Hc.
    repeat split; assumption.
  - intros Hwe.
    assert (Hday : (5 <=? weekday now)%Z = true)
      by (apply Z.leb_le; destruct Hwe; lia).
    unfold Yahoo.is_market_open, NSE.is_market_open.
    rewrite Hday. split; reflexivity.
Qed.

Lemma market_window_closed_ends_witness :
  (Yahoo.is_market_open (replace Examples.monday_noon 9 15 0 0) = true
   /\ Yahoo.is_market_open (replace Examples.monday_noon 15 30 0 0) = true
   /\ NSE.is_market_open (replace Examples.monday_noon 9 15 0 0) = true
   /\ NSE.is_market_open (replace Examples.monday_noon 15 30 0 0) = true)
  /\ (Yahoo.is_market_open Examples.saturday_noon = false
      /\ NSE.is_market_open Examples.saturday_noon = false).
Proof.
  split.
  - apply (proj1 (market_window_closed_ends Examples.monday_noon)).
    vm_compute. reflexivity.
  - apply (proj2 (market_window_closed_ends Examples.saturday_noon)).
    left. vm_compute. reflexivity.
Defined.

End ClockFacts.

(** ** Integers as floats *)

Module FloatFacts.
Import Normalizer.

Local Open Scope Z_scope.





End FloatFacts.

Module QualityFacts.
Import Normalizer.




Lemma price_score (p : NormalizedPrice) :
  (score_price p).1 =
    (100 - (if le_zero (price p) then 30 else 0)
         - (if (volume p <=? 0)%Z then 10 else 0)
         - (if truthy (timestamp p) then 0 else 20)
         - (if abs_exceeds (change_percent p) 20 then 5 else 0))%Z.
Proof.
  unfold score_price, deduct.
  destruct (le_zero (price p)), (volume p <=? 0)%Z, (truthy (timestamp p)),
    (abs_exceeds (change_percent p) 20); reflexivity.
Qed.

(** The score of a series whose count a float can hold. *)
Lemma historical_score (h : NormalizedHistoricalData) :
  (Z.abs (hist_count h) < float_int_bound)%Z ->
  exists st,
    score_historical h = Ok st
    /\ st.1 =
        ((if (hist_count h =? 0)%Z then 0
          else if (hist_count h <? 10)%Z then 80 else 100)
         - (if (Z.of_nat
                  (length (filter (fun p => Is_true (has_timestamp p))
                             (hist_data h))) * 2 ^ 53
                <? sig53 (sig53 (hist_count h) * nine_tenths))%Z
            then 15 else 0))%Z.
Proof.
  intros Hfit. apply Z.ltb_lt in Hfit.
  unfold score_historical, too_few_timestamps. rewrite Hfit. cbn [obind].
  eexists. split; [reflexivity|].
  unfold deduct.
  destruct (hist_count h =? 0)%Z, (hist_count h <? 10)%Z,
    (_ * 2 ^ 53 <? _)%Z; reflexivity.
Qed.

Lemma historical_overflow (h : NormalizedHistoricalData) :
  (float_int_bound <= Z.abs (hist_count h))%Z ->
  score_historical h = Raise OverflowError.
Proof.
  intros Hbig. apply Z.ltb_ge in Hbig.
  unfold score_historical, too_few_timestamps. rewrite Hbig. reflexivity.
Qed.





(** The claim as worded is false of a series that holds no points but
    declares five: it scores 65 and is valid. *)
Lemma quality_zero_points_counterexample :
  hist_data Scenarios.short_series = []
  /\ quality_score (validate_data_quality (OfHistorical Scenarios.short_series))
     = 65%Z
  /\ is_valid (validate_data_quality (OfHistorical Scenarios.short_series))
     = true.
Proof. repeat split; vm_compute; reflexivity. Qed.

End QualityFacts.

Module CacheFacts.
Import Cache.

Section StoreFacts.

Context {D : Type}.

Implicit Types (st : store D) (e : cache_entry D).

Lemma valid_iff (now : Z) e (cat : string) :
  _is_cache_valid now e cat = true
  <-> exists t, cached_at e = Some t
                /\ (t + seconds (ttl cat) <= datetime_max)%Z
                /\ (now < t + seconds (ttl cat))%Z.
Proof.
  unfold _is_cache_valid. destruct (cached_at e) as [t|].
  - cbn zeta.
    destruct (t + seconds (ttl cat) <=? datetime_max)%Z eqn:Hfit.
    + apply Z.leb_le in Hfit. rewrite Z.ltb_lt. split.
      * intros H. exists t. repeat split; assumption.
      * intros (t' & Ht & _ & H). injection Ht as <-. exact H.
    + apply Z.leb_gt in Hfit. split; [discriminate|].
      intros (t' & Ht & Hle & _). injection Ht as <-. lia.
  - split; [discriminate|]. intros (t & Ht & _). discriminate.
Qed.

Lemma ttl_configured (cat : string) (s : Z) :
  assoc cat ttl_settings = Some s -> ttl cat = s.
Proof. unfold ttl. intros ->. reflexivity. Qed.


Lemma key_of_binds (cat sym : string) (kw : list (string * kwarg)) :
  binds kw = true -> cache_key_of cat sym kw = Ok (_get_cache_key cat sym kw).
Proof. unfold cache_key_of. intros ->. reflexivity. Qed.

Lemma key_of_clash (cat sym : string) (kw : list (string * kwarg)) :
  binds kw = false -> cache_key_of cat sym kw = Raise TypeError.
Proof. unfold cache_key_of. intros ->. reflexivity. Qed.

(** With a name the key function cannot bind, [get] and [set] do nothing. *)
Lemma get_clash (now : Z) (cat sym : string) (kw : list (string * kwarg)) st :
  binds kw = false -> get now cat sym kw st = (None, st).
Proof. intros H. unfold get. rewrite (key_of_clash _ _ _ H). reflexivity. Qed.


(** The entry [set] writes is valid until its TTL has elapsed, where the
    expiry time is one a [datetime] can hold. *)
Lemma set_entry_valid (t_set t_get : Z) (cat sym : string)
    (kw : list (string * kwarg)) (payload : D) :
  (t_set + seconds (ttl cat) <= datetime_max)%Z ->
  (t_get < t_set + seconds (ttl cat))%Z ->
  _is_cache_valid t_get
    {| cached_at := Some t_set; cache_type := cat; symbol := sym;
       kwargs := kw; data := payload |} cat = true.
Proof.
  intros Hfit H. apply valid_iff. exists t_set. repeat split; assumption.
Qed.

Lemma set_memory (t : Z) (w : write_outcome) (cat sym : string) (payload : D)
    (kw : list (string * kwarg)) st :
  binds kw = true ->
  memory_cache (set t w cat sym payload kw st).2 !! _get_cache_key cat sym kw =
    Some {| cached_at := Some t; cache_type := cat; symbol := sym;
            kwargs := kw; data := payload |}.
Proof.
  intros Hb. unfold set. rewrite (key_of_binds _ _ _ Hb).
  destruct w; cbn; apply lookup_insert_eq.
Qed.

End StoreFacts.



(** The round trip as worded, for all extra parameters, fails for one named
    [prefix]: one second after the [set], well within the TTL of 60 seconds,
    [get] returns none. *)
Lemma cache_round_trip_counterexample :
  (seconds 1 < 0 + seconds (ttl "real_time"))%Z
  /\ (get (seconds 1) "real_time" "TCS" [("prefix", KStr "x")]
        (set 0 Written "real_time" "TCS" (VInt 7) [("prefix", KStr "x")]
           Examples.empty_store).2).1 = None.
Proof. split; vm_compute; reflexivity. Qed.





End CacheFacts.

Module MergeFacts.
Import Normalizer.

(** After the loop a key of the fallback holds the fallback's value exactly
    when the primary needed filling there; every other key is the primary's. *)
Lemma fill_lookup (p f : dict) (k : string) :
  map_fold fill_step p f !! k =
    match f !! k with
    | Some v => if needs_fill p k then Some v else p !! k
    | None => p !! k
    end.
Proof.
  apply (map_fold_weak_ind
           (fun (r : dict) (m : dict) =>
              r !! k = match m !! k with
                       | Some v => if needs_fill p k then Some v else p !! k
                       | None => p !! k
                       end)).
  - by rewrite lookup_empty.
  - intros i x m r Hi IH. unfold fill_step.
    destruct (decide (i = k)) as [->|Hne].
    + rewrite lookup_insert_eq. rewrite Hi in IH.
      assert (Hnf : needs_fill r k = needs_fill p k)
        by (unfold needs_fill; by rewrite IH).
      rewrite Hnf. destruct (needs_fill p k).
      * by rewrite lookup_insert_eq.
      * done.
    + rewrite (lookup_insert_ne m i k) by done.
      destruct (needs_fill r i); [by rewrite lookup_insert_ne|done].
Qed.

Lemma stamp_other (p f m : dict) (k : string) :
  k ∉ provenance_keys -> stamp p f m !! k = m !! k.
Proof.
  unfold provenance_keys, stamp. intros Hk.
  apply not_elem_of_cons in Hk as [H1 Hk].
  apply not_elem_of_cons in Hk as [H2 Hk].
  apply not_elem_of_cons in Hk as [H3 _].
  rewrite !lookup_insert_ne by congruence. reflexivity.
Qed.

Lemma merge_usable (p f : dict) :
  unusable (Some p) = false -> unusable (Some f) = false ->
  merge_data_sources (Some p) (Some f) = Some (stamp p f (map_fold fill_step p f)).
Proof.
  unfold unusable, merge_data_sources. intros -> ->. reflexivity.
Qed.

(** C1, as the code has it. If primary is absent, empty or carries an error
    marker, the fallback is returned verbatim, and vice versa. Otherwise the
    result starts from a copy of primary and, for every key of the fallback
    other than the three provenance keys, the fallback's value overwrites
    exactly when primary's value for the key is absent, none, or equal to
    zero ([0], [0.0] or [False]); the result carries [primary_source],
    [fallback_source] and [merged = True]. For primary [{a:5, b:0, c:None}]
    and fallback [{a:9, b:9, c:9, d:9}] the merge is [{a:5, b:9, c:9, d:9}]
    with the provenance markers. *)
Theorem merge_fill_only_empty (primary fallback : option dict) :
  (unusable primary = true -> merge_data_sources primary fallback = fallback)
  /\ (unusable primary = false -> unusable fallback = true ->
      merge_data_sources primary fallback = primary)
  /\ (forall p f : dict,
        primary = Some p -> fallback = Some f ->
        unusable primary = false -> unusable fallback = false ->
        exists merged : dict,
          merge_data_sources primary fallback = Some merged
          /\ merged !! "primary_source" = Some (dict_get p "source" (VStr "unknown"))
          /\ merged !! "fallback_source" = Some (dict_get f "source" (VStr "unknown"))
          /\ merged !! "merged" = Some (VBool true)
          /\ forall key : string,
               key ∉ provenance_keys ->
               merged !! key =
                 match f !! key with
                 | Some v =>
                     match p !! key with
                     | None => Some v
                     | Some pv => if is_none pv || eq_zero pv then Some v else Some pv
                     end
                 | None => p !! key
                 end)
  /\ merge_data_sources (Some example_primary) (Some example_fallback)
     = Some example_merged.
Proof.
  split; [|split; [|split]].
  - destruct primary as [p|]; [|reflexivity].
    unfold unusable, merge_data_sources. intros ->. reflexivity.
  - destruct primary as [p|]; [|discriminate].
    unfold unusable at 1. unfold merge_data_sources. intros ->.
    destruct fallback as [f|]; [|reflexivity].
    unfold unusable. intros ->. reflexivity.
  - intros p f -> -> Hp Hf.
    exists (stamp p f (map_fold fill_step p f)).
    split; [apply merge_usable; assumption|].
    split; [unfold stamp; rewrite !lookup_insert_ne by discriminate;
            apply lookup_insert_eq|].
    split; [unfold stamp; rewrite lookup_insert_ne by discriminate;
            apply lookup_insert_eq|].
    split; [unfold stamp; apply lookup_insert_eq|].
    intros key Hkey. rewrite stamp_other by exact Hkey.
    rewrite fill_lookup. unfold needs_fill.
    destruct (f !! key) as [v|]; [|reflexivity].
    destruct (p !! key) as [pv|] eqn:Hpk; [|reflexivity].
    destruct (is_none pv || eq_zero pv); reflexivity.
  - vm_compute. reflexivity.
Qed.

(** Instances: an empty primary gives the fallback back unstamped, and the
    payloads of the fill-only-empty example merge as described. *)
Lemma merge_fill_only_empty_witness :
  merge_data_sources (Some Examples.empty_payload) (Some Examples.lone_fallback)
    = Some Examples.lone_fallback
  /\ exists merged : dict,
       merge_data_sources (Some example_primary) (Some example_fallback) = Some merged
       /\ merged !! "primary_source" = Some (VStr "unknown")
       /\ merged !! "fallback_source" = Some (VStr "unknown")
       /\ merged !! "merged" = Some (VBool true)
       /\ merged !! "b" = Some (VInt 9).
Proof.
  split.
  - apply (proj1 (merge_fill_only_empty (Some Examples.empty_payload)
                    (Some Examples.lone_fallback))).
    vm_compute. reflexivity.
  - destruct (merge_fill_only_empty (Some example_primary) (Some example_fallback))
      as (_ & _ & Hmerge & _).
    destruct (Hmerge example_primary example_fallback eq_refl eq_refl)
      as (merged & Heq & Hps & Hfs & Hm & Hkeys).
    + vm_compute. reflexivity.
    + vm_compute. reflexivity.
    + exists merged. split; [exact Heq|].
      split; [exact Hps|]. split; [exact Hfs|]. split; [exact Hm|].
      rewrite (Hkeys "b").
      * vm_compute. reflexivity.
      * unfold provenance_keys. intros Hin.
        repeat (apply elem_of_cons in Hin as [Hin|Hin]; [discriminate Hin|]).
        inversion Hin.
Defined.

(** C1 as stated fails for a primary that is present but empty: it is not
    absent and carries no error marker, the fallback is usable, yet the
    result is the bare fallback, without the [merged] marker. *)
Lemma merge_empty_primary_counterexample :
  has_key "error" Examples.empty_payload = false
  /\ has_key "error" Examples.lone_fallback = false
  /\ merge_data_sources (Some Examples.empty_payload) (Some Examples.lone_fallback)
     = Some Examples.lone_fallback
  /\ Examples.lone_fallback !! "merged" = None.
Proof. vm_compute. repeat split; reflexivity. Qed.

End MergeFacts.

Module StringFacts.
Import PyStr.

Local Open Scope list_scope.

Lemma upper_char_idem (c : ascii) : upper_char (upper_char c) = upper_char c.
Proof. destruct c as [[] [] [] [] [] [] [] []]; reflexivity. Qed.

Lemma is_space_upper_char (c : ascii) : is_space (upper_char c) = is_space c.
Proof. destruct c as [[] [] [] [] [] [] [] []]; reflexivity. Qed.

Lemma lstrip_upper (l : list ascii) :
  lstrip_chars (map upper_char l) = map upper_char (lstrip_chars l).
Proof.
  induction l as [|c l IH]; [reflexivity|]. cbn.
  rewrite is_space_upper_char. destruct (is_space c); [exact IH|reflexivity].
Qed.

Lemma rstrip_upper (l : list ascii) :
  rstrip_chars (map upper_char l) = map upper_char (rstrip_chars l).
Proof.
  unfold rstrip_chars. rewrite <- map_rev, lstrip_upper, map_rev. reflexivity.
Qed.

Lemma strip_upper (l : list ascii) :
  strip_chars (map upper_char l) = map upper_char (strip_chars l).
Proof. unfold strip_chars. rewrite lstrip_upper, rstrip_upper. reflexivity. Qed.

Lemma upper_idem (l : list ascii) :
  map upper_char (map upper_char l) = map upper_char l.
Proof.
  rewrite map_map. apply map_ext. intros c. apply upper_char_idem.
Qed.

Lemma lstrip_head (l : list ascii) :
  match lstrip_chars l with
  | [] => True
  | c :: _ => is_space c = false
  end.
Proof.
  induction l as [|c l IH]; [exact I|]. cbn.
  destruct (is_space c) eqn:E; [exact IH|exact E].
Qed.

Lemma lstrip_fixed (l : list ascii) :
  match l with [] => True | c :: _ => is_space c = false end ->
  lstrip_chars l = l.
Proof. destruct l as [|c l]; [reflexivity|]. cbn. intros ->. reflexivity. Qed.

Lemma lstrip_idem (l : list ascii) :
  lstrip_chars (lstrip_chars l) = lstrip_chars l.
Proof. apply lstrip_fixed, lstrip_head. Qed.

Lemma lstrip_snoc (a : list ascii) (c : ascii) :
  is_space c = false -> lstrip_chars (a ++ [c]) = lstrip_chars a ++ [c].
Proof.
  intros Hc. induction a as [|x a IH]; cbn.
  - rewrite Hc. reflexivity.
  - destruct (is_space x); [exact IH|reflexivity].
Qed.

Lemma rstrip_cons (c : ascii) (r : list ascii) :
  is_space c = false -> rstrip_chars (c :: r) = c :: rstrip_chars r.
Proof.
  intros Hc. unfold rstrip_chars. cbn.
  rewrite lstrip_snoc by exact Hc. rewrite rev_app_distr. reflexivity.
Qed.


Lemma rstrip_snoc (a : list ascii) (c : ascii) :
  is_space c = false -> rstrip_chars (a ++ [c]) = a ++ [c].
Proof.
  intros Hc. unfold rstrip_chars. rewrite rev_app_distr. cbn. rewrite Hc.
  cbn. rewrite rev_involutive. reflexivity.
Qed.

(** Stripping the right end leaves a clean left end clean. *)
Lemma lstrip_rstrip (x : list ascii) :
  lstrip_chars x = x -> lstrip_chars (rstrip_chars x) = rstrip_chars x.
Proof.
  intros Hx. destruct x as [|c r]; [reflexivity|].
  assert (Hc : is_space c = false).
  { pose proof (lstrip_head (c :: r)) as H. rewrite Hx in H. exact H. }
  rewrite rstrip_cons by exact Hc. cbn. rewrite Hc. reflexivity.
Qed.

Lemma lstrip_strip (l : list ascii) :
  lstrip_chars (strip_chars l) = strip_chars l.
Proof. unfold strip_chars. apply lstrip_rstrip, lstrip_idem. Qed.


(** The list of characters of a normal form [upper (strip s)]. *)
Lemma chars_normal (s : string) :
  chars (upper (strip s)) = map upper_char (strip_chars (chars s)).
Proof.
  unfold upper, strip. rewrite !list_ascii_of_string_of_list_ascii. reflexivity.
Qed.


Lemma chars_app (a b : string) : chars (a +:+ b) = chars a ++ chars b.
Proof. induction a as [|c a IH]; simpl; [reflexivity|]. f_equal. exact IH. Qed.

Lemma chars_inj (a b : string) : chars a = chars b -> a = b.
Proof.
  intros H. rewrite <- (string_of_list_ascii_of_string a),
    <- (string_of_list_ascii_of_string b), H. reflexivity.
Qed.

Lemma ends_with_iff (l suf : list ascii) :
  ends_with l suf = true <-> exists k, l = k ++ suf.
Proof.
  unfold ends_with. rewrite bool_decide_eq_true. split.
  - intros H. exists (take (length l - length suf) l).
    rewrite <- H at 2. symmetry. apply take_drop.
  - intros (k & ->). rewrite length_app.
    replace (length k + length suf - length suf)%nat with (length k) by lia.
    apply drop_app_length.
Qed.

Lemma ends_with_app (k suf : list ascii) : ends_with (k ++ suf) suf = true.
Proof. apply ends_with_iff. exists k. reflexivity. Qed.

Lemma drop_last_app (t suf : string) :
  drop_last (length (chars suf)) (t +:+ suf) = t.
Proof.
  unfold drop_last. rewrite chars_app, length_app.
  replace (length (chars t) + length (chars suf) - length (chars suf))%nat
    with (length (chars t)) by lia.
  rewrite take_app_length. apply string_of_list_ascii_of_string.
Qed.

(** Stripping never lengthens, and keeps the length only of what it leaves
    as it is. *)
Lemma lstrip_length (l : list ascii) : (length (lstrip_chars l) <= length l)%nat.
Proof.
  induction l as [|c l IH]; [reflexivity|]. cbn.
  destruct (is_space c); cbn; lia.
Qed.

Lemma lstrip_same_length (l : list ascii) :
  length (lstrip_chars l) = length l -> lstrip_chars l = l.
Proof.
  destruct l as [|c l]; [reflexivity|]. cbn.
  destruct (is_space c); [|reflexivity].
  intros H. pose proof (lstrip_length l). lia.
Qed.

Lemma rstrip_length (l : list ascii) : (length (rstrip_chars l) <= length l)%nat.
Proof.
  unfold rstrip_chars. rewrite length_rev.
  pose proof (lstrip_length (rev l)) as H. rewrite length_rev in H. exact H.
Qed.

Lemma rstrip_same_length (l : list ascii) :
  length (rstrip_chars l) = length l -> rstrip_chars l = l.
Proof.
  unfold rstrip_chars. rewrite length_rev. intros H.
  rewrite lstrip_same_length by (rewrite length_rev; exact H).
  apply rev_involutive.
Qed.


Lemma strip_same_length (l : list ascii) :
  length (strip_chars l) = length l -> strip_chars l = l.
Proof.
  unfold strip_chars. intros H.
  pose proof (rstrip_length (lstrip_chars l)) as Hr.
  pose proof (lstrip_length l) as Hl.
  assert (Hleft : lstrip_chars l = l) by (apply lstrip_same_length; lia).
  rewrite Hleft in *. apply rstrip_same_length. exact H.
Qed.

Lemma chars_strip (s : string) : chars (strip s) = strip_chars (chars s).
Proof. unfold strip. apply list_ascii_of_string_of_list_ascii. Qed.






End StringFacts.

Module SymbolFacts.
Import PyStr StringFacts.

Local Open Scope list_scope.

Lemma assoc_elem {A : Type} (key : string) (table : list (string * A)) (v : A) :
  assoc key table = Some v -> (key, v) ∈ table.
Proof.
  induction table as [|[k x] rest IH]; cbn; [discriminate|].
  destruct (String.eqb key k) eqn:E.
  - apply String.eqb_eq in E as ->. intros [= ->]. apply list_elem_of_here.
  - intros H. apply list_elem_of_further, IH, H.
Qed.

Lemma append_empty (t : string) : t +:+ "" = t.
Proof. apply chars_inj. rewrite chars_app. apply app_nil_r. Qed.

Lemma upper_normal (s : string) : upper (upper (strip s)) = upper (strip s).
Proof.
  unfold upper at 1. rewrite chars_normal, upper_idem.
  unfold upper, strip. rewrite list_ascii_of_string_of_list_ascii. reflexivity.
Qed.

Lemma upper_prefix (t suf : string) :
  upper (t +:+ suf) = t +:+ suf -> upper t = t.
Proof.
  intros H. apply (f_equal chars) in H. unfold upper in H.
  rewrite list_ascii_of_string_of_list_ascii, !chars_app, map_app in H.
  apply app_inj_1 in H as [H _]; [|apply length_map].
  apply chars_inj. unfold upper.
  rewrite list_ascii_of_string_of_list_ascii. exact H.
Qed.

Lemma forallb_lstrip (l : list ascii) :
  forallb (fun c => negb (is_space c)) l = true -> lstrip_chars l = l.
Proof.
  destruct l as [|c l]; [reflexivity|]. cbn.
  destruct (is_space c); [discriminate|reflexivity].
Qed.

Lemma forallb_rev {A : Type} (f : A -> bool) (l : list A) :
  forallb f (rev l) = forallb f l.
Proof.
  induction l as [|x l IH]; [reflexivity|]. cbn.
  rewrite forallb_app, IH. cbn. rewrite andb_true_r. apply andb_comm.
Qed.

Lemma plain_weaken (l : list ascii) :
  forallb (fun c => negb (is_space c) && negb (Ascii.eqb c ".")) l = true ->
  forallb (fun c => negb (is_space c)) l = true.
Proof.
  induction l as [|c l IH]; [reflexivity|]. cbn.
  destruct (is_space c); [discriminate|]. cbn.
  destruct (Ascii.eqb c "."); [discriminate|]. exact IH.
Qed.

Lemma plain_strip (t : string) : plain_name t = true -> strip t = t.
Proof.
  unfold plain_name, strip, strip_chars, rstrip_chars. intros H.
  apply plain_weaken in H.
  rewrite (forallb_lstrip _ H).
  rewrite (forallb_lstrip (rev (chars t))) by (rewrite forallb_rev; exact H).
  rewrite rev_involutive. apply string_of_list_ascii_of_string.
Qed.

Lemma plain_no_dot (t : string) (k suf : list ascii) :
  plain_name t = true -> chars t = k ++ "."%char :: suf -> False.
Proof.
  unfold plain_name. intros H Heq. rewrite Heq, forallb_app in H.
  cbn in H. rewrite !andb_false_r in H. discriminate.
Qed.

(** A plain name ends with none of the exchange suffixes. *)
Lemma plain_no_suffix (t suf : string) (rest : list ascii) :
  plain_name t = true -> chars suf = "."%char :: rest ->
  endswith t suf = false.
Proof.
  intros Hp Hs. destruct (endswith t suf) eqn:E; [|reflexivity].
  unfold endswith in E. apply ends_with_iff in E as [k Hk].
  rewrite Hs in Hk. destruct (plain_no_dot t k rest Hp Hk).
Qed.

Lemma endswith_app (t suf : string) : endswith (t +:+ suf) suf = true.
Proof. unfold endswith. rewrite chars_app. apply ends_with_app. Qed.

Ltac suffix_clash :=
  match goal with
  | |- endswith (?t +:+ ?x) ?y = false =>
      let E := fresh "E" in
      let k := fresh "k" in
      let Hk := fresh "Hk" in
      destruct (endswith (t +:+ x) y) eqn:E; [|reflexivity];
      unfold endswith in E; apply ends_with_iff in E as [k Hk];
      rewrite chars_app in Hk; apply (f_equal (@rev ascii)) in Hk;
      rewrite !rev_app_distr in Hk; simpl in Hk; discriminate Hk
  end.

(** *** The library-backed adapter *)


Lemma yahoo_keys_unsuffixed :
  Forall (fun kv : string * string => endswith kv.1 ".NS" = false)
    Yahoo.indian_indices.
Proof. repeat constructor; vm_compute; reflexivity. Qed.

Lemma yahoo_suffixed_not_index (u : string) :
  endswith u ".NS" = true -> assoc u Yahoo.indian_indices = None.
Proof.
  intros He. destruct (assoc u Yahoo.indian_indices) as [v|] eqn:Ha; [|reflexivity].
  apply assoc_elem in Ha.
  pose proof (proj1 (Forall_forall _ _) yahoo_keys_unsuffixed _ Ha) as Hk.
  cbn in Hk. congruence.
Qed.

Lemma strip_chars_suffixed (ul : list ascii) :
  lstrip_chars ul = ul ->
  strip_chars (ul ++ chars ".NS") = ul ++ chars ".NS".
Proof.
  intros Hl. unfold strip_chars.
  assert (Hleft : lstrip_chars (ul ++ chars ".NS") = ul ++ chars ".NS").
  { destruct ul as [|c r]; [reflexivity|].
    pose proof (lstrip_head (c :: r)) as Hc. rewrite Hl in Hc.
    cbn. rewrite Hc. reflexivity. }
  rewrite Hleft.
  change (chars ".NS") with (["."; "N"]%char ++ ["S"%char]).
  rewrite app_assoc. apply rstrip_snoc. reflexivity.
Qed.

Lemma normal_suffixed_fixed (s : string) :
  upper (strip (upper (strip s) +:+ ".NS")) = upper (strip s) +:+ ".NS".
Proof.
  apply chars_inj. unfold upper at 1. unfold strip at 1.
  rewrite !list_ascii_of_string_of_list_ascii, !chars_app, chars_normal.
  rewrite strip_chars_suffixed.
  - rewrite map_app, upper_idem. reflexivity.
  - rewrite <- strip_upper. apply lstrip_strip.
Qed.


(** *** The exchange-scraper adapter *)

Lemma nse_result (s t suf : string) :
  upper (strip s) = t +:+ suf -> plain_name t = true ->
  suf ∈ [""; ".NS"; ".NSE"]%string ->
  NSE.normalize_symbol s = t.
Proof.
  intros Hu Hp Hsuf. unfold NSE.normalize_symbol. rewrite Hu.
  repeat (apply elem_of_cons in Hsuf as [->|Hsuf]); [| | |inversion Hsuf].
  - rewrite append_empty.
    rewrite (plain_no_suffix t ".NS" _ Hp eq_refl).
    rewrite (plain_no_suffix t ".NSE" _ Hp eq_refl). reflexivity.
  - rewrite endswith_app. apply (drop_last_app t ".NS").
  - assert (H1 : endswith (t +:+ ".NSE") ".NS" = false) by suffix_clash.
    rewrite H1, endswith_app. apply (drop_last_app t ".NSE").
Qed.



(** *** The normalizer's alias routing *)







(** *** When a second call changes nothing *)


Lemma strip_fixed_by_length (r : string) :
  length (chars (strip r)) = length (chars r) -> strip r = r.
Proof.
  rewrite chars_strip. intros H. apply chars_inj. rewrite chars_strip.
  apply strip_same_length. exact H.
Qed.












End SymbolFacts.

Module CoercionFacts.
Import Normalizer.

(** Every value that comes out of [_safe_float] is a number: [None] is turned
    into [0.0] like any other value that does not convert. *)
Lemma safe_float_of_none (float_of_str : string -> option pyfloat) :
  _safe_float float_of_str VNone = Ok (Finite 0).
Proof. reflexivity. Qed.

(** The optional fields of a normalized price are never [None]. *)
Lemma optional_fields_never_none (float_of_str : string -> option pyfloat)
    (now_iso : string) (raw_data : dict) (r : NormalizedPrice) :
  normalize_price_data float_of_str now_iso raw_data = Some r ->
  previous_close r <> None /\ market_cap r <> None /\ pe_ratio r <> None.
Proof.
  unfold normalize_price_data. destruct (has_key "error" raw_data); [discriminate|].
  intros H.
  repeat match type of H with
         | (?x ≫= _) = Some _ => destruct x; cbn in H; [|discriminate H]
         end.
  injection H as <-. cbn. repeat split; discriminate.
Qed.

(** C5 at a raw quote without [previous_close], [market_cap] and [pe_ratio]:
    the required fields are coerced as the claim says, but the three optional
    fields come out as [0.0], not as none. *)
Theorem optional_fields_become_zero (float_of_str : string -> option pyfloat)
    (now_iso : string) :
  Examples.bare_quote !! "previous_close" = None
  /\ Examples.bare_quote !! "market_cap" = None
  /\ Examples.bare_quote !! "pe_ratio" = None
  /\ exists r : NormalizedPrice,
       normalize_price_data float_of_str now_iso Examples.bare_quote = Some r
       /\ previous_close r = Some (Finite 0)
       /\ market_cap r = Some (Finite 0)
       /\ pe_ratio r = Some (Finite 0)
       /\ change r = Finite 0
       /\ volume r = 0%Z.
Proof.
  split; [reflexivity|]. split; [reflexivity|]. split; [reflexivity|].
  eexists. split; [vm_compute; reflexivity|].
  repeat split; reflexivity.
Qed.

End CoercionFacts.

Module InvalidateFacts.
Import Cache.

(** With both filters absent everything goes. *)
Lemma invalidate_all {D : Type} (st : store D) :
  invalidate None None st = {| memory_cache := ∅; cache_dir := ∅ |}.
Proof. reflexivity. Qed.

(** A filtered [invalidate] only walks the keys of the memory tier: with an
    empty memory tier it is the identity, whatever the files hold. *)
Lemma filtered_invalidate_skips_files {D : Type} (st : store D)
    (type_filter symbol_filter : option string) :
  memory_cache st = ∅ ->
  (type_filter <> None \/ symbol_filter <> None) ->
  invalidate type_filter symbol_filter st = st.
Proof.
  intros Hm Hf. unfold invalidate.
  destruct type_filter as [t|], symbol_filter as [s|];
    try (rewrite Hm, map_to_list_empty; reflexivity).
  destruct Hf as [Hf|Hf]; congruence.
Qed.

(** C9 at a store whose memory tier is empty and whose disk tier holds an
    entry of category [real_time] for [TCS], as after a restart: the entry
    matches both filters, and [invalidate] leaves it on disk. *)
Theorem filtered_invalidate_leaves_disk_entry :
  cache_dir Examples.disk_only !! Examples.tcs_key
    = Some (Stored (Examples.entry_at 0 (VInt 1)))
  /\ matches (Some "real_time") (Some "TCS") (Examples.entry_at 0 (VInt 1)) = true
  /\ invalidate (Some "real_time") (Some "TCS") Examples.disk_only
     = Examples.disk_only
  /\ invalidate (Some "real_time") None Examples.disk_only = Examples.disk_only
  /\ invalidate None (Some "TCS") Examples.disk_only = Examples.disk_only.
Proof.
  split; [vm_compute; reflexivity|].
  split; [vm_compute; reflexivity|].
  repeat split; apply filtered_invalidate_skips_files;
    (reflexivity || (left; discriminate) || (right; discriminate)).
Qed.

End InvalidateFacts.

Module AdapterFacts.
Import BaseClient.

(** The library-backed adapter checks both allow-lists before anything
    leaves the process. *)
Lemma yahoo_validates_first (runtime_text : exn -> string)
    (history : string -> string -> string -> outcome (list Yahoo.bar))
    (symbol period interval : string) :
  validate_period period && validate_interval interval = false ->
  (Yahoo.get_historical_data runtime_text history symbol period interval).2 = []
  /\ has_key "error"
       (Yahoo.get_historical_data runtime_text history symbol period interval).1
     = true.
Proof.
  unfold Yahoo.get_historical_data. intros H.
  destruct (validate_period period); cbn.
  - cbn in H. rewrite H. cbn. split; reflexivity.
  - split; reflexivity.
Qed.

(** The exchange-scraper adapter always issues its chart request. *)
Lemma nse_always_requests (runtime_text : exn -> string)
    (float_of_str : string -> option pyfloat)
    (http_get : string -> list (string * string) -> outcome NSE.http_response)
    (session : bool) (symbol period interval : string) :
  (NSE.get_historical_data runtime_text float_of_str http_get session
     symbol period interval).2
  = ((NSE._get_session session).2
       ++ [HttpGet (NSE.base_url +:+ "/chart-databyindex")
             [("index", NSE.normalize_symbol symbol +:+ "EQN");
              ("indices", "true")]])%list.
Proof.
  unfold NSE.get_historical_data.
  destruct (NSE._get_session session) as [s calls]. cbn.
  destruct (http_get _ _) as [response|e]; [|reflexivity].
  destruct (NSE.status response =? 200)%Z; [|reflexivity].
  destruct (NSE.json response); reflexivity.
Qed.

(** C8 at the period ["bogus"], which is not in the allow-list. The
    library-backed adapter returns its error payload without a call; the
    exchange-scraper adapter, holding a session, sends the chart request all
    the same, whatever the exchange answers. *)
Theorem nse_history_skips_validation (runtime_text : exn -> string)
    (float_of_str : string -> option pyfloat)
    (history : string -> string -> string -> outcome (list Yahoo.bar))
    (http_get : string -> list (string * string) -> outcome NSE.http_response) :
  validate_period "bogus" = false
  /\ Yahoo.get_historical_data runtime_text history "TCS" "bogus" "1d"
     = (error_payload "Invalid period: bogus" "TCS", [])
  /\ (NSE.get_historical_data runtime_text float_of_str http_get true
        "TCS" "bogus" "1d").2
     = [HttpGet Examples.chart_url [("index", "TCSEQN"); ("indices", "true")]].
Proof.
  split; [vm_compute; reflexivity|].
  split; [reflexivity|].
  rewrite nse_always_requests. vm_compute. reflexivity.
Qed.

End AdapterFacts.

Module OrchestratorFacts.
Import Orchestrator.

Section Loop.

Variable float_of_str : string -> option pyfloat.
Variable nse yahoo : string -> outcome dict.

(** The loop never reaches the assignment to [fallback_data]: the first
    usable payload finds [primary_data] unset, and the [break] follows. *)
Lemma loop_never_sets_fallback (sources : list string) (symbol : string)
    (st : fetch) :
  primary_data st = None -> fallback_data st = None ->
  fallback_data (try_sources nse yahoo sources symbol st) = None.
Proof.
  revert st. induction sources as [|source rest IH]; intros st Hp Hf; cbn.
  - exact Hf.
  - destruct (String.eqb source "nse").
    + destruct (nse symbol) as [data|e]; cbn.
      * destruct (usable data); cbn.
        -- rewrite Hp. cbn. exact Hf.
        -- apply IH; assumption.
      * apply IH; assumption.
    + destruct (String.eqb source "yahoo").
      * destruct (yahoo symbol) as [data|e]; cbn.
        -- destruct (usable data); cbn.
           ++ rewrite Hp. cbn. exact Hf.
           ++ apply IH; assumption.
        -- apply IH; assumption.
      * apply IH; assumption.
Qed.

End Loop.

(** C2 where both adapters answer with a usable quote. The claim has the
    second answer become the fallback and the merge be cached; the code stops
    at the first answer: only the exchange scraper is consulted, no fallback
    is ever set, and the payload written to the cache is the scraper's own,
    without the [merged] marker and with its zero volume unfilled. *)
Theorem loop_stops_at_first_success (float_of_str : string -> option pyfloat) :
  (forall (nse yahoo : string -> outcome dict) (sources : list string)
          (symbol : string),
      fallback_data (try_sources nse yahoo sources symbol fresh) = None)
  /\ usable Examples.nse_quote = true
  /\ usable Examples.yahoo_quote = true
  /\ sources_called
       (get_real_time_price float_of_str Examples.nse_answers
          Examples.yahoo_answers 0 0 "2024-01-01T12:00:00" Cache.Written
          "RELIANCE" true (Some Examples.no_cache_yet))
     = ["nse"]
  /\ cached_payload
       (get_real_time_price float_of_str Examples.nse_answers
          Examples.yahoo_answers 0 0 "2024-01-01T12:00:00" Cache.Written
          "RELIANCE" true (Some Examples.no_cache_yet))
     = Some Examples.nse_quote
  /\ Examples.nse_quote !! "merged" = None
  /\ Normalizer.merge_data_sources (Some Examples.nse_quote)
       (Some Examples.yahoo_quote)
     <> Some Examples.nse_quote.
Proof.
  split.
  { intros nse yahoo sources symbol.
    apply loop_never_sets_fallback; reflexivity. }
  split; [vm_compute; reflexivity|].
  split; [vm_compute; reflexivity|].
  split; [vm_compute; reflexivity|].
  split; [vm_compute; reflexivity|].
  split; [vm_compute; reflexivity|].
  intros H.
  assert (Hm : Normalizer.merge_data_sources (Some Examples.nse_quote)
                 (Some Examples.yahoo_quote) ≫= (fun m => m !! "merged")
               = Some (VBool true)) by (vm_compute; reflexivity).
  rewrite H in Hm. vm_compute in Hm. discriminate Hm.
Qed.

End OrchestratorFacts.

(** * Further properties of the cache manager *)

Module SweepFacts.
Import Cache CacheSweep.

Section Sweeping.

Context {D : Type}.

Implicit Types (memory : gmap string (cache_entry D))
  (files : gmap string (cache_file D)) (st : store D).

Lemma lookup_foldl_delete {A : Type} (m : gmap string A) (keys : list string)
    (k : string) :
  foldl (fun acc key => delete key acc) m keys !! k
  = if decide (k ∈ keys) then None else m !! k.
Proof.
  revert m. induction keys as [|key keys IH]; intros m; cbn.
  - rewrite decide_False by apply not_elem_of_nil. reflexivity.
  - rewrite IH. destruct (decide (k ∈ keys)) as [Hin|Hnin].
    + rewrite decide_True by (apply elem_of_cons; right; exact Hin). reflexivity.
    + destruct (decide (k = key)) as [->|Hne].
      * rewrite decide_True by apply list_elem_of_here. apply lookup_delete_eq.
      * rewrite decide_False.
        -- apply lookup_delete_ne. congruence.
        -- intros [?|?]%elem_of_cons; contradiction.
Qed.

Lemma counted_deletes {A : Type} (m : gmap string A) (n : nat)
    (keys : list string) :
  foldl (fun (acc : gmap string A * nat) key => (delete key acc.1, S acc.2))
        (m, n) keys
  = (foldl (fun acc key => delete key acc) m keys, (n + length keys)%nat).
Proof.
  revert m n. induction keys as [|key keys IH]; intros m n; cbn.
  - f_equal. lia.
  - rewrite IH. f_equal. lia.
Qed.

Lemma expired_key_iff (now : Z) memory (k : string) :
  k ∈ (filter (fun kv : string * cache_entry D => Is_true (expired now kv.2))
         (map_to_list memory)).*1
  <-> exists e, memory !! k = Some e /\ expired now e = true.
Proof.
  rewrite list_elem_of_fmap. split.
  - intros ([k' e] & -> & Hin). apply list_elem_of_filter in Hin as [Hexp Hin].
    apply elem_of_map_to_list in Hin. exists e. split; [exact Hin|].
    apply Is_true_true. exact Hexp.
  - intros (e & Hm & Hexp). exists (k, e). split; [reflexivity|].
    apply list_elem_of_filter. split.
    + apply Is_true_true. exact Hexp.
    + apply elem_of_map_to_list. exact Hm.
Qed.

Lemma sweep_memory_lookup (now : Z) memory (k : string) :
  (sweep_memory now memory).1 !! k
  = match memory !! k with
    | Some e => if expired now e then None else Some e
    | None => None
    end.
Proof.
  unfold sweep_memory. rewrite counted_deletes. cbn. rewrite lookup_foldl_delete.
  destruct (decide _) as [Hin|Hnin].
  - apply expired_key_iff in Hin as (e & -> & ->). reflexivity.
  - destruct (memory !! k) as [e|] eqn:Hm; [|reflexivity].
    destruct (expired now e) eqn:He; [|reflexivity].
    exfalso. apply Hnin. apply expired_key_iff. exists e. split; assumption.
Qed.

Lemma sweep_memory_count (now : Z) memory :
  (sweep_memory now memory).2
  = length (filter (fun kv : string * cache_entry D => Is_true (expired now kv.2))
              (map_to_list memory)).
Proof.
  unfold sweep_memory. rewrite counted_deletes. cbn. apply length_fmap.
Qed.

(** The loop over the files, for any list of files and any running state. *)
Lemma sweep_files_fold (now : Z) (l : list (string * cache_file D)) files
    (n : nat) :
  foldl (sweep_file now) (files, n) l
  = (foldl (fun acc key => delete key acc) files
       (filter (fun kf : string * cache_file D => Is_true (stale_file now kf.2)) l).*1,
     (n + length (filter (fun kf : string * cache_file D =>
                            Is_true (stale_file now kf.2)) l))%nat).
Proof.
  revert files n. induction l as [|[k f] l IH]; intros files n.
  - cbn. f_equal. lia.
  - change (foldl (sweep_file now) (files, n) ((k, f) :: l))
      with (foldl (sweep_file now) (sweep_file now (files, n) (k, f)) l).
    assert (Hstep : sweep_file now (files, n) (k, f)
                    = if stale_file now f then (delete k files, S n)
                      else (files, n)).
    { destruct f as [|e]; [reflexivity|]. unfold sweep_file, stale_file. cbn.
      destruct (expired now e); reflexivity. }
    rewrite Hstep. destruct (stale_file now f) eqn:Hs.
    + rewrite IH.
      rewrite filter_cons_True by (cbn; rewrite Hs; exact I).
      cbn. f_equal. lia.
    + rewrite IH.
      rewrite filter_cons_False by (cbn; rewrite Hs; intros []).
      reflexivity.
Qed.

Lemma stale_key_iff (now : Z) files (k : string) :
  k ∈ (filter (fun kf : string * cache_file D => Is_true (stale_file now kf.2))
         (map_to_list files)).*1
  <-> exists f, files !! k = Some f /\ stale_file now f = true.
Proof.
  rewrite list_elem_of_fmap. split.
  - intros ([k' f] & -> & Hin). apply list_elem_of_filter in Hin as [Hs Hin].
    apply elem_of_map_to_list in Hin. exists f. split; [exact Hin|].
    apply Is_true_true. exact Hs.
  - intros (f & Hm & Hs). exists (k, f). split; [reflexivity|].
    apply list_elem_of_filter. split.
    + apply Is_true_true. exact Hs.
    + apply elem_of_map_to_list. exact Hm.
Qed.

Lemma cleanup_unfold (now : Z) st :
  cleanup_expired now st
  = (((sweep_memory now (memory_cache st)).2
      + length (filter (fun kf : string * cache_file D =>
                          Is_true (stale_file now kf.2))
                  (map_to_list (cache_dir st))))%nat,
     {| memory_cache := (sweep_memory now (memory_cache st)).1;
        cache_dir :=
          foldl (fun acc key => delete key acc) (cache_dir st)
            (filter (fun kf : string * cache_file D =>
                       Is_true (stale_file now kf.2))
               (map_to_list (cache_dir st))).*1 |}).
Proof.
  unfold cleanup_expired.
  destruct (sweep_memory now (memory_cache st)) as [memory n]. cbn.
  rewrite sweep_files_fold. reflexivity.
Qed.

Lemma cleanup_files_lookup (now : Z) st (k : string) :
  cache_dir (cleanup_expired now st).2 !! k
  = match cache_dir st !! k with
    | Some f => if stale_file now f then None else Some f
    | None => None
    end.
Proof.
  rewrite cleanup_unfold. cbn. rewrite lookup_foldl_delete.
  destruct (decide _) as [Hin|Hnin].
  - apply stale_key_iff in Hin as (f & -> & ->). reflexivity.
  - destruct (cache_dir st !! k) as [f|] eqn:Hm; [|reflexivity].
    destruct (stale_file now f) eqn:Hf; [|reflexivity].
    exfalso. apply Hnin. apply stale_key_iff. exists f. split; assumption.
Qed.

Lemma cleanup_memory_lookup (now : Z) st (k : string) :
  memory_cache (cleanup_expired now st).2 !! k
  = match memory_cache st !! k with
    | Some e => if expired now e then None else Some e
    | None => None
    end.
Proof. rewrite cleanup_unfold. cbn. apply sweep_memory_lookup. Qed.

End Sweeping.

(** X1. [cleanup_expired] keeps exactly the entries that are still valid under
    the TTL of the category they carry: in the memory tier an entry stays,
    unchanged, if and only if it is not expired, and in the disk tier a file
    stays, unchanged, if and only if it is readable and its entry is not
    expired. Nothing is added to either tier. *)
Theorem cleanup_keeps_exactly_the_valid {D : Type} (now : Z) (st : store D)
    (k : string) :
  memory_cache (cleanup_expired now st).2 !! k
    = match memory_cache st !! k with
      | Some e => if _is_cache_valid now e (cache_type e) then Some e else None
      | None => None
      end
  /\ cache_dir (cleanup_expired now st).2 !! k
     = match cache_dir st !! k with
       | Some (Stored e) =>
           if _is_cache_valid now e (cache_type e) then Some (Stored e) else None
       | _ => None
       end.
Proof.
  rewrite cleanup_memory_lookup, cleanup_files_lookup. split.
  - destruct (memory_cache st !! k) as [e|]; [|reflexivity].
    unfold expired. destruct (_is_cache_valid now e (cache_type e)); reflexivity.
  - destruct (cache_dir st !! k) as [[|e]|]; [reflexivity| |reflexivity].
    cbn. unfold expired.
    destruct (_is_cache_valid now e (cache_type e)); reflexivity.
Qed.

Lemma size_foldl_delete {A : Type} (m : gmap string A) (keys : list string) :
  NoDup keys -> (forall k, k ∈ keys -> is_Some (m !! k)) ->
  (size (foldl (fun acc key => delete key acc) m keys) + length keys)%nat = size m.
Proof.
  revert m. induction keys as [|key keys IH]; intros m Hnd Hin; cbn.
  - lia.
  - apply NoDup_cons in Hnd as [Hfresh Hnd].
    destruct (Hin key (list_elem_of_here _ _)) as [x Hx].
    rewrite Nat.add_succ_r, IH.
    + rewrite <- (insert_id m key x Hx) at 2.
      rewrite <- insert_delete_eq.
      rewrite map_size_insert_None by apply lookup_delete_eq. reflexivity.
    + exact Hnd.
    + intros k Hk. rewrite lookup_delete_ne.
      * apply Hin. apply list_elem_of_further. exact Hk.
      * intros ->. contradiction.
Qed.

Lemma filtered_keys_NoDup {A : Type} (m : gmap string A)
    (P : string * A -> Prop) `{!forall x, Decision (P x)} :
  NoDup (filter P (map_to_list m)).*1.
Proof.
  apply (sublist_NoDup _ (map_to_list m).*1).
  - apply NoDup_fst_map_to_list.
  - apply fmap_sublist. apply sublist_filter.
Qed.

(** X2. The number [cleanup_expired] returns is the number of entries that
    left the two tiers: the count plus what remains in memory and on disk is
    what was there before. *)
Theorem cleanup_counts_what_it_removes {D : Type} (now : Z) (st : store D) :
  ((cleanup_expired now st).1
   + size (memory_cache (cleanup_expired now st).2)
   + size (cache_dir (cleanup_expired now st).2))%nat
  = (size (memory_cache st) + size (cache_dir st))%nat.
Proof.
  rewrite cleanup_unfold. cbn. rewrite sweep_memory_count.
  unfold sweep_memory. rewrite counted_deletes. cbn.
  pose proof (size_foldl_delete (memory_cache st)
    (filter (fun kv : string * cache_entry D => Is_true (expired now kv.2))
       (map_to_list (memory_cache st))).*1
    (filtered_keys_NoDup _ _)) as Hm.
  pose proof (size_foldl_delete (cache_dir st)
    (filter (fun kf : string * cache_file D => Is_true (stale_file now kf.2))
       (map_to_list (cache_dir st))).*1
    (filtered_keys_NoDup _ _)) as Hf.
  rewrite !length_fmap in *.
  rewrite <- Hm, <- Hf.
  - lia.
  - intros k Hk. apply stale_key_iff in Hk as (f & -> & _). eexists; reflexivity.
  - intros k Hk. apply expired_key_iff in Hk as (e & -> & _). eexists; reflexivity.
Qed.

Lemma filter_none {A : Type} (P : A -> Prop) `{!forall x, Decision (P x)}
    (l : list A) :
  (forall x, x ∈ l -> ~ P x) -> filter P l = [].
Proof.
  intros Hnone. destruct (filter P l) as [|x l'] eqn:E; [reflexivity|].
  assert (Hx : x ∈ filter P l) by (rewrite E; apply list_elem_of_here).
  apply list_elem_of_filter in Hx as [HP Hin]. destruct (Hnone x Hin HP).
Qed.

(** A store in which nothing is stale is left alone by the sweep. *)
Lemma cleanup_nothing_to_do {D : Type} (now : Z) (st : store D) :
  (forall k e, memory_cache st !! k = Some e -> expired now e = false) ->
  (forall k f, cache_dir st !! k = Some f -> stale_file now f = false) ->
  cleanup_expired now st = (0%nat, st).
Proof.
  intros Hm Hf. rewrite cleanup_unfold. unfold sweep_memory.
  rewrite (filter_none (fun kv : string * cache_entry D =>
                          Is_true (expired now kv.2))).
  - rewrite (filter_none (fun kf : string * cache_file D =>
                            Is_true (stale_file now kf.2))).
    + cbn. destruct st; reflexivity.
    + intros [k f] Hin%elem_of_map_to_list. cbn.
      rewrite (Hf k f Hin). intros [].
  - intros [k e] Hin%elem_of_map_to_list. cbn.
    rewrite (Hm k e Hin). intros [].
Qed.

(** X3. Sweeping twice at the same instant is the same as sweeping once: the
    second sweep removes nothing and returns 0. *)
Theorem cleanup_twice_is_once {D : Type} (now : Z) (st : store D) :
  cleanup_expired now (cleanup_expired now st).2
  = (0%nat, (cleanup_expired now st).2).
Proof.
  apply cleanup_nothing_to_do.
  - intros k e. rewrite cleanup_memory_lookup.
    destruct (memory_cache st !! k) as [e'|]; [|discriminate].
    destruct (expired now e') eqn:He; [discriminate|].
    intros [= <-]. exact He.
  - intros k f. rewrite cleanup_files_lookup.
    destruct (cache_dir st !! k) as [f'|]; [|discriminate].
    destruct (stale_file now f') eqn:Hf; [discriminate|].
    intros [= <-]. exact Hf.
Qed.

(** X4. A sweep does not change what a read returns: for a key whose stored
    entries carry the category they are asked for, [get] returns the same
    payload (or none) after [cleanup_expired] as before it, at the same
    instant. *)
Theorem cleanup_preserves_reads {D : Type} (now : Z) (st : store D)
    (cat sym : string) (kw : list (string * kwarg)) :
  (forall e, memory_cache st !! _get_cache_key cat sym kw = Some e ->
             cache_type e = cat) ->
  (forall e, cache_dir st !! _get_cache_key cat sym kw = Some (Stored e) ->
             cache_type e = cat) ->
  (get now cat sym kw (cleanup_expired now st).2).1
  = (get now cat sym kw st).1.
Proof.
  intros Hmem Hdisk. unfold get, cache_key_of.
  destruct (binds kw); [|reflexivity]. cbn zeta.
  remember (_get_cache_key cat sym kw) as key eqn:Hkey. clear Hkey.
  rewrite cleanup_memory_lookup.
  destruct (memory_cache st !! key) as [e|] eqn:Hm.
  - specialize (Hmem e eq_refl). unfold expired. rewrite Hmem.
    destruct (_is_cache_valid now e cat) eqn:Hv; cbn.
    + rewrite Hv. reflexivity.
    + rewrite cleanup_files_lookup.
      destruct (cache_dir st !! key) as [[|e']|] eqn:Hd;
        cbn; [reflexivity| |reflexivity].
      specialize (Hdisk e' eq_refl). unfold expired. rewrite Hdisk.
      destruct (_is_cache_valid now e' cat) eqn:Hv'; cbn.
      * rewrite Hv'. reflexivity.
      * reflexivity.
  - rewrite cleanup_files_lookup.
    destruct (cache_dir st !! key) as [[|e']|] eqn:Hd;
      cbn; [reflexivity| |reflexivity].
    specialize (Hdisk e' eq_refl). unfold expired. rewrite Hdisk.
    destruct (_is_cache_valid now e' cat) eqn:Hv'; cbn.
    + rewrite Hv'. reflexivity.
    + reflexivity.
Qed.

Lemma cleanup_preserves_reads_witness :
  (get (seconds 61) "real_time" "TCS" []
     (cleanup_expired (seconds 61) Scenarios.mixed_store).2).1
  = (get (seconds 61) "real_time" "TCS" [] Scenarios.mixed_store).1.
Proof.
  apply (cleanup_preserves_reads (seconds 61) Scenarios.mixed_store
           "real_time" "TCS" []).
  - intros e He. vm_compute in He. injection He as <-. reflexivity.
  - intros e He. vm_compute in He. injection He as <-. reflexivity.
Defined.

End SweepFacts.

Module StoreFrameFacts.
Import Cache.

Lemma filtered_key_iff {A : Type} (P : A -> bool) (m : gmap string A)
    (k : string) :
  k ∈ (filter (fun kv : string * A => Is_true (P kv.2)) (map_to_list m)).*1
  <-> exists e, m !! k = Some e /\ P e = true.
Proof.
  rewrite list_elem_of_fmap. split.
  - intros ([k' e] & -> & Hin). apply list_elem_of_filter in Hin as [HP Hin].
    apply elem_of_map_to_list in Hin. exists e. split; [exact Hin|].
    apply Is_true_true. exact HP.
  - intros (e & Hm & HP). exists (k, e). split; [reflexivity|].
    apply list_elem_of_filter. split.
    + apply Is_true_true. exact HP.
    + apply elem_of_map_to_list. exact Hm.
Qed.

Lemma remove_keys_tiers {D : Type} (st : store D) (keys : list string) :
  memory_cache (foldl remove_key st keys)
    = foldl (fun acc key => delete key acc) (memory_cache st) keys
  /\ cache_dir (foldl remove_key st keys)
     = foldl (fun acc key => delete key acc) (cache_dir st) keys.
Proof.
  revert st. induction keys as [|key keys IH]; intros st; cbn.
  - split; reflexivity.
  - destruct (IH (remove_key st key)) as [-> ->]. split; reflexivity.
Qed.

Lemma filtered_invalidate_unfold {D : Type} (tf sf : option string)
    (st : store D) :
  tf <> None \/ sf <> None ->
  invalidate tf sf st
  = foldl remove_key st
      (filter (fun kv : string * cache_entry D => Is_true (matches tf sf kv.2))
         (map_to_list (memory_cache st))).*1.
Proof.
  intros Hf. unfold invalidate.
  destruct tf as [t|], sf as [s|]; try reflexivity.
  destruct Hf as [Hf|Hf]; congruence.
Qed.

Lemma invalidate_lookup {D : Type} (tf sf : option string)
    (st : store D) (k : string) :
  tf <> None \/ sf <> None ->
  memory_cache (invalidate tf sf st) !! k
    = match memory_cache st !! k with
      | Some e => if matches tf sf e then None else Some e
      | None => None
      end
  /\ cache_dir (invalidate tf sf st) !! k
     = match memory_cache st !! k with
       | Some e => if matches tf sf e then None else cache_dir st !! k
       | None => cache_dir st !! k
       end.
Proof.
  intros Hf. rewrite (filtered_invalidate_unfold tf sf st Hf).
  destruct (remove_keys_tiers st
    (filter (fun kv : string * cache_entry D => Is_true (matches tf sf kv.2))
       (map_to_list (memory_cache st))).*1) as [-> ->].
  rewrite !SweepFacts.lookup_foldl_delete.
  destruct (decide _) as [Hin|Hnin].
  - apply (filtered_key_iff (matches tf sf)) in Hin as (e & -> & ->).
    split; reflexivity.
  - destruct (memory_cache st !! k) as [e|] eqn:Hm; [|split; reflexivity].
    destruct (matches tf sf e) eqn:He; [|split; reflexivity].
    exfalso. apply Hnin. apply (filtered_key_iff (matches tf sf)).
    exists e. split; assumption.
Qed.

(** X5. With a category and/or a symbol, [invalidate] removes from the memory
    tier exactly the entries that match the filters and leaves the others
    unchanged; from the disk tier it removes the file of a key exactly when
    the memory tier held a matching entry under that key. *)
Theorem invalidate_follows_memory {D : Type} (tf sf : option string)
    (st : store D) (k : string) :
  tf <> None \/ sf <> None ->
  memory_cache (invalidate tf sf st) !! k
    = match memory_cache st !! k with
      | Some e => if matches tf sf e then None else Some e
      | None => None
      end
  /\ cache_dir (invalidate tf sf st) !! k
     = match memory_cache st !! k with
       | Some e => if matches tf sf e then None else cache_dir st !! k
       | None => cache_dir st !! k
       end.
Proof. apply invalidate_lookup. Qed.

Lemma invalidate_follows_memory_witness :
  memory_cache (invalidate (Some "real_time") None Scenarios.mixed_store)
    !! Scenarios.infy_key = Some Scenarios.fresh_entry
  /\ cache_dir (invalidate (Some "real_time") None Scenarios.mixed_store)
       !! Examples.tcs_key = None.
Proof.
  assert (Hf : Some "real_time" <> None \/ @None string <> None)
    by (left; discriminate).
  split.
  - rewrite (proj1 (invalidate_follows_memory (Some "real_time") None
                      Scenarios.mixed_store Scenarios.infy_key Hf)).
    vm_compute. reflexivity.
  - rewrite (proj2 (invalidate_follows_memory (Some "real_time") None
                      Scenarios.mixed_store Examples.tcs_key Hf)).
    vm_compute. reflexivity.
Defined.

(** X6. An entry written by [set] is gone after an [invalidate] whose filters
    it matches (none, its category, its symbol, or both): neither tier holds
    its key any more, and a following [get] with the same parameters returns
    none, however soon it comes. (With extra parameters the key function
    cannot bind, [set] has written nothing, and [get] returns none as
    well.) *)
Theorem invalidate_undoes_set {D : Type} (st : store D) (t_set t_get : Z)
    (w : write_outcome) (cat sym : string) (kw : list (string * kwarg))
    (payload : D) (tf sf : option string) :
  (tf = None \/ tf = Some cat) -> (sf = None \/ sf = Some sym) ->
  let after := invalidate tf sf (set t_set w cat sym payload kw st).2 in
  (binds kw = true ->
   memory_cache after !! _get_cache_key cat sym kw = None
   /\ cache_dir after !! _get_cache_key cat sym kw = None)
  /\ (get t_get cat sym kw after).1 = None.
Proof.
  intros Htf Hsf. cbn zeta.
  destruct (binds kw) eqn:Hb;
    [|split; [discriminate|]; rewrite CacheFacts.get_clash by exact Hb;
      reflexivity].
  pose proof (CacheFacts.set_memory t_set w cat sym payload kw st Hb) as Hset.
  remember (set t_set w cat sym payload kw st).2 as st1 eqn:Hst1.
  remember (_get_cache_key cat sym kw) as key eqn:Hkey. clear Hst1.
  assert (Hmatch :
    matches tf sf {| cached_at := Some t_set; cache_type := cat; symbol := sym;
                     kwargs := kw; data := payload |} = true).
  { unfold matches. cbn.
    destruct Htf as [-> | ->], Hsf as [-> | ->]; cbn;
      rewrite ?String.eqb_refl; reflexivity. }
  assert (Hgone : memory_cache (invalidate tf sf st1) !! key = None
                  /\ cache_dir (invalidate tf sf st1) !! key = None).
  { destruct (decide (tf = None /\ sf = None)) as [[-> ->]|Hnot].
    - unfold invalidate. cbn. split; apply lookup_empty.
    - assert (Hf : tf <> None \/ sf <> None).
      { destruct tf as [t|]; [left; discriminate|].
        destruct sf as [s|]; [right; discriminate|].
        exfalso. apply Hnot. split; reflexivity. }
      rewrite (proj1 (invalidate_lookup tf sf st1 key Hf)).
      rewrite (proj2 (invalidate_lookup tf sf st1 key Hf)).
      rewrite Hset, Hmatch. split; reflexivity. }
  destruct Hgone as [Hm Hd]. split; [intros _; split; assumption|].
  unfold get. rewrite (CacheFacts.key_of_binds _ _ _ Hb). cbn zeta.
  rewrite <- Hkey, Hm, Hd. reflexivity.
Qed.

Lemma invalidate_undoes_set_witness :
  (get 1 "real_time" "TCS" []
     (invalidate (Some "real_time") None
        (set 0 Written "real_time" "TCS" (VInt 7) [] Examples.empty_store).2)).1
  = None.
Proof.
  apply (invalidate_undoes_set Examples.empty_store 0 1 Written "real_time"
           "TCS" [] (VInt 7) (Some "real_time") None).
  - right. reflexivity.
  - left. reflexivity.
Defined.

(** X7. [get] and [set] touch only the entry of their own key: under every
    other key both tiers are as they were. *)
Theorem get_and_set_touch_one_key {D : Type} (st : store D) (now : Z)
    (w : write_outcome) (cat sym : string) (kw : list (string * kwarg))
    (payload : D) (k : string) :
  k <> _get_cache_key cat sym kw ->
  memory_cache (get now cat sym kw st).2 !! k = memory_cache st !! k
  /\ cache_dir (get now cat sym kw st).2 !! k = cache_dir st !! k
  /\ memory_cache (set now w cat sym payload kw st).2 !! k = memory_cache st !! k
  /\ cache_dir (set now w cat sym payload kw st).2 !! k = cache_dir st !! k.
Proof.
  intros Hk. unfold get, set, cache_key_of.
  destruct (binds kw); [|repeat split; reflexivity]. cbn zeta.
  remember (_get_cache_key cat sym kw) as key eqn:Hkey. clear Hkey.
  assert (Hne : key <> k) by congruence.
  split; [|split; [|split]].
  - destruct (memory_cache st !! key) as [e|];
      [destruct (_is_cache_valid now e cat); [reflexivity|]|];
      cbn; destruct (cache_dir st !! key) as [[|e']|]; cbn;
      try destruct (_is_cache_valid now e' cat); cbn;
      rewrite ?lookup_insert_ne, ?lookup_delete_ne by exact Hne; reflexivity.
  - destruct (memory_cache st !! key) as [e|];
      [destruct (_is_cache_valid now e cat); [reflexivity|]|];
      cbn; destruct (cache_dir st !! key) as [[|e']|]; cbn;
      try destruct (_is_cache_valid now e' cat); cbn;
      rewrite ?lookup_insert_ne, ?lookup_delete_ne by exact Hne; reflexivity.
  - destruct w; cbn; apply lookup_insert_ne; exact Hne.
  - destruct w; cbn; rewrite ?lookup_insert_ne by exact Hne; reflexivity.
Qed.

Lemma get_and_set_touch_one_key_witness :
  memory_cache (get (seconds 61) "real_time" "TCS" [] Scenarios.mixed_store).2
    !! Scenarios.infy_key
  = memory_cache Scenarios.mixed_store !! Scenarios.infy_key.
Proof.
  apply (get_and_set_touch_one_key Scenarios.mixed_store (seconds 61) Written
           "real_time" "TCS" [] (VInt 0) Scenarios.infy_key).
  vm_compute. discriminate.
Defined.

End StoreFrameFacts.

Module KeyFacts.
Import Cache.

Lemma leb_lt_or_eq (a b : string) :
  String.leb a b = true <-> OrderedTypeEx.String_as_OT.lt a b \/ a = b.
Proof.
  unfold String.leb. split.
  - destruct (String.compare a b) eqn:E; [|left|discriminate].
    + intros _. right. apply String.compare_eq_iff. exact E.
    + apply OrderedTypeEx.String_as_OT.cmp_lt. exact E.
  - intros [Hlt | ->].
    + apply OrderedTypeEx.String_as_OT.cmp_lt in Hlt.
      unfold OrderedTypeEx.String_as_OT.cmp in Hlt. rewrite Hlt. reflexivity.
    + assert (E : String.compare b b = Eq)
        by (apply (OrderedTypeEx.String_as_OT.cmp_eq b b); reflexivity).
      rewrite E. reflexivity.
Qed.

Lemma leb_trans (a b c : string) :
  String.leb a b = true -> String.leb b c = true -> String.leb a c = true.
Proof.
  rewrite !leb_lt_or_eq. intros [Hab | ->] [Hbc | ->]; auto.
  left. exact (OrderedTypeEx.String_as_OT.lt_trans _ _ _ Hab Hbc).
Qed.

Lemma leb_false_flip (a b : string) :
  String.leb a b = false -> String.leb b a = true.
Proof.
  intros H. destruct (String.leb_total a b) as [Hab | Hba]; [congruence|exact Hba].
Qed.

Lemma insert_cons (kv kv' : string * kwarg) (rest : list (string * kwarg)) :
  insert_sorted kv (kv' :: rest)
  = if String.leb kv.1 kv'.1 then kv :: kv' :: rest
    else kv' :: insert_sorted kv rest.
Proof. reflexivity. Qed.

Ltac order_clash :=
  exfalso;
  match goal with
  | Hne : ?x <> ?y, H1 : String.leb ?x ?y = true,
    H2 : String.leb ?y ?x = true |- _ =>
      apply Hne; apply (String.leb_antisym _ _ H1 H2)
  | Hne : ?x <> ?y, H1 : String.leb ?y ?x = true,
    H2 : String.leb ?x ?y = true |- _ =>
      apply Hne; apply (String.leb_antisym _ _ H2 H1)
  | H1 : String.leb ?x ?y = false, H2 : String.leb ?y ?x = false |- _ =>
      apply leb_false_flip in H1; congruence
  | H1 : String.leb ?x ?y = true, H2 : String.leb ?y ?z = true,
    H3 : String.leb ?x ?z = false |- _ =>
      pose proof (leb_trans _ _ _ H1 H2); congruence
  end.

(** Inserting two items with different keys gives the same list in either
    order. *)
Lemma insert_sorted_comm (a c : string * kwarg) (l : list (string * kwarg)) :
  a.1 <> c.1 ->
  insert_sorted a (insert_sorted c l) = insert_sorted c (insert_sorted a l).
Proof.
  intros Hne. induction l as [|e l IH].
  - cbn [insert_sorted].
    destruct (String.leb a.1 c.1) eqn:ac, (String.leb c.1 a.1) eqn:ca;
      try reflexivity; order_clash.
  - rewrite (insert_cons c e l), (insert_cons a e l).
    destruct (String.leb a.1 e.1) eqn:ae, (String.leb c.1 e.1) eqn:ce;
      rewrite !insert_cons, ?ae, ?ce;
      destruct (String.leb a.1 c.1) eqn:ac, (String.leb c.1 a.1) eqn:ca;
      rewrite ?insert_cons, ?ae, ?ce;
      try reflexivity; try (rewrite IH; reflexivity); order_clash.
Qed.

Lemma sorted_items_permutation (kw kw' : list (string * kwarg)) :
  kw ≡ₚ kw' -> NoDup kw.*1 -> sorted_items kw = sorted_items kw'.
Proof.
  intros Hperm Hnd. unfold sorted_items.
  apply (foldr_permutation eq insert_sorted []); [|exact Hperm].
  intros j1 a1 j2 a2 b Hj H1 H2. apply insert_sorted_comm.
  intros Heq. apply Hj.
  apply (NoDup_lookup kw.*1 j1 j2 a1.1 Hnd).
  - rewrite list_lookup_fmap, H1. reflexivity.
  - rewrite list_lookup_fmap, H2, Heq. reflexivity.
Qed.

Lemma binds_permutation (kw kw' : list (string * kwarg)) :
  kw ≡ₚ kw' -> binds kw = binds kw'.
Proof.
  unfold binds. intros Hperm.
  induction Hperm as [|x l l' _ IH|x y l|l l' l'' _ IH1 _ IH2]; cbn.
  - reflexivity.
  - rewrite IH. reflexivity.
  - destruct (negb (bool_decide (x.1 ∈ key_parameters))),
      (negb (bool_decide (y.1 ∈ key_parameters))); reflexivity.
  - rewrite IH1. exact IH2.
Qed.

(** X8. The cache key does not depend on the order in which the extra
    parameters are passed: two listings of the same parameters (distinct
    names, as the keys of a dict are) give the same key, and the key function
    can bind the one exactly when it can bind the other. So an entry stored
    with one listing, of parameters the key function can bind, is read back
    with the other before the TTL has elapsed, where the expiry time is one a
    [datetime] can hold. *)
Theorem cache_key_ignores_kwargs_order {D : Type} (st : store D)
    (t_set t_get : Z) (w : write_outcome) (cat sym : string)
    (kw kw' : list (string * kwarg)) (payload : D) :
  kw ≡ₚ kw' -> NoDup kw.*1 ->
  _get_cache_key cat sym kw = _get_cache_key cat sym kw'
  /\ cache_key_of cat sym kw = cache_key_of cat sym kw'
  /\ (binds kw = true ->
      (t_set + seconds (ttl cat) <= datetime_max)%Z ->
      (t_get < t_set + seconds (ttl cat))%Z ->
      (get t_get cat sym kw' (set t_set w cat sym payload kw st).2).1
      = Some payload).
Proof.
  intros Hperm Hnd.
  assert (Hkey : _get_cache_key cat sym kw = _get_cache_key cat sym kw')
    by (unfold _get_cache_key; rewrite (sorted_items_permutation kw kw' Hperm Hnd);
        reflexivity).
  pose proof (binds_permutation kw kw' Hperm) as Hbinds.
  split; [exact Hkey|].
  split; [unfold cache_key_of; rewrite Hbinds, Hkey; reflexivity|].
  intros Hb Hfit Hfresh. unfold get.
  rewrite CacheFacts.key_of_binds by (rewrite <- Hbinds; exact Hb).
  cbn zeta. rewrite <- Hkey.
  rewrite (CacheFacts.set_memory _ _ _ _ _ _ _ Hb).
  rewrite (CacheFacts.set_entry_valid t_set t_get cat sym kw payload Hfit Hfresh).
  reflexivity.
Qed.

Lemma cache_key_ignores_kwargs_order_witness :
  _get_cache_key "historical_1d" "TCS"
    [("period", KStr "1y"); ("interval", KStr "1d")]
  = _get_cache_key "historical_1d" "TCS"
      [("interval", KStr "1d"); ("period", KStr "1y")]
  /\ (get (seconds 3599) "historical_1d" "TCS"
        [("interval", KStr "1d"); ("period", KStr "1y")]
        (set 0 Written "historical_1d" "TCS" (VInt 7)
           [("period", KStr "1y"); ("interval", KStr "1d")]
           Examples.empty_store).2).1 = Some (VInt 7).
Proof.
  assert (Hnd : NoDup [("period", KStr "1y"); ("interval", KStr "1d")].*1).
  { apply NoDup_cons. split.
    + intros Hin. apply elem_of_cons in Hin as [Hin|Hin]; [discriminate Hin|].
      inversion Hin.
    + apply NoDup_cons. split; [intros Hin; inversion Hin|apply NoDup_nil_2]. }
  destruct (cache_key_ignores_kwargs_order Examples.empty_store 0 (seconds 3599)
              Written "historical_1d" "TCS"
              [("period", KStr "1y"); ("interval", KStr "1d")]
              [("interval", KStr "1d"); ("period", KStr "1y")] (VInt 7)
              (perm_swap _ _ _) Hnd) as (Hkey & _ & Hread).
  split; [exact Hkey|].
  apply Hread.
  - reflexivity.
  - vm_compute. discriminate.
  - vm_compute. reflexivity.
Defined.

(** The payload [get] returns depends only on what the two tiers hold under
    its own key. *)
Lemma get_depends_on_own_key {D : Type} (st st' : store D) (now : Z)
    (cat sym : string) (kw : list (string * kwarg)) :
  memory_cache st !! _get_cache_key cat sym kw
    = memory_cache st' !! _get_cache_key cat sym kw ->
  cache_dir st !! _get_cache_key cat sym kw
    = cache_dir st' !! _get_cache_key cat sym kw ->
  (get now cat sym kw st).1 = (get now cat sym kw st').1.
Proof.
  unfold get, cache_key_of. destruct (binds kw); [|reflexivity]. cbn zeta.
  remember (_get_cache_key cat sym kw) as key eqn:Hkey. clear Hkey.
  intros <- Hd.
  destruct (memory_cache st !! key) as [e|];
    [destruct (_is_cache_valid now e cat); [reflexivity|]|];
    cbn; rewrite <- Hd;
    destruct (cache_dir st !! key) as [[|e']|]; cbn;
    try destruct (_is_cache_valid now e' cat); reflexivity.
Qed.

(** X9. Entries do not interfere: writing, reading or invalidating under one
    key does not change what [get] returns under a different key. *)
Theorem other_keys_do_not_interfere {D : Type} (st : store D) (now t : Z)
    (w : write_outcome) (cat sym cat' sym' : string)
    (kw kw' : list (string * kwarg)) (payload : D) :
  _get_cache_key cat' sym' kw' <> _get_cache_key cat sym kw ->
  (get now cat sym kw (set t w cat' sym' payload kw' st).2).1
    = (get now cat sym kw st).1
  /\ (get now cat sym kw (get t cat' sym' kw' st).2).1
     = (get now cat sym kw st).1.
Proof.
  intros Hne. split; apply get_depends_on_own_key.
  - unfold set, cache_key_of. destruct (binds kw'); [|reflexivity].
    destruct w; cbn; apply lookup_insert_ne; exact Hne.
  - unfold set, cache_key_of. destruct (binds kw'); [|reflexivity].
    destruct w; cbn; rewrite ?lookup_insert_ne by exact Hne;
      reflexivity.
  - unfold get, cache_key_of. destruct (binds kw'); [|reflexivity]. cbn zeta.
    remember (_get_cache_key cat' sym' kw') as key' eqn:Hkey'. clear Hkey'.
    destruct (memory_cache st !! key') as [e|];
      [destruct (_is_cache_valid t e cat'); [reflexivity|]|];
      cbn; destruct (cache_dir st !! key') as [[|e']|]; cbn;
      try destruct (_is_cache_valid t e' cat'); cbn;
      rewrite ?lookup_insert_ne, ?lookup_delete_ne by exact Hne; reflexivity.
  - unfold get, cache_key_of. destruct (binds kw'); [|reflexivity]. cbn zeta.
    remember (_get_cache_key cat' sym' kw') as key' eqn:Hkey'. clear Hkey'.
    destruct (memory_cache st !! key') as [e|];
      [destruct (_is_cache_valid t e cat'); [reflexivity|]|];
      cbn; destruct (cache_dir st !! key') as [[|e']|]; cbn;
      try destruct (_is_cache_valid t e' cat'); cbn;
      rewrite ?lookup_insert_ne, ?lookup_delete_ne by exact Hne; reflexivity.
Qed.

Lemma other_keys_do_not_interfere_witness :
  (get 1 "real_time" "TCS" []
     (set 0 Written "real_time" "INFY" (VInt 5) [] Examples.both_tiers).2).1
  = (get 1 "real_time" "TCS" [] Examples.both_tiers).1.
Proof.
  apply (other_keys_do_not_interfere Examples.both_tiers 1 0 Written
           "real_time" "TCS" "real_time" "INFY" [] [] (VInt 5)).
  vm_compute. discriminate.
Defined.

End KeyFacts.

(** * Further properties of the normalizer *)

Module NormalizerMoreFacts.
Import Normalizer.

Lemma py_float_fails (float_of_str : string -> option pyfloat) (v : value) (e : exn) :
  py_float float_of_str v = Raise e -> caught e = false ->
  e = OverflowError /\ exists z, v = VInt z /\ (float_int_bound <= Z.abs z)%Z.
Proof.
  destruct v as [|b|z|x|s|l|d]; cbn.
  - intros [= <-]. discriminate.
  - discriminate.
  - destruct (Z.abs z <? float_int_bound)%Z eqn:E; [discriminate|].
    intros [= <-] _. split; [reflexivity|]. exists z. split; [reflexivity|].
    apply Z.ltb_ge. exact E.
  - discriminate.
  - destruct (float_of_str s); [discriminate|]. intros [= <-]. discriminate.
  - intros [= <-]. discriminate.
  - intros [= <-]. discriminate.
Qed.

Lemma py_float_huge (float_of_str : string -> option pyfloat) (z : Z) :
  (float_int_bound <= Z.abs z)%Z ->
  py_float float_of_str (VInt z) = Raise OverflowError.
Proof.
  intros H. cbn. apply Z.ltb_ge in H. rewrite H. reflexivity.
Qed.

Lemma py_float_fits (float_of_str : string -> option pyfloat) (z : Z) :
  (Z.abs z < float_int_bound)%Z ->
  py_float float_of_str (VInt z) = Ok (Finite (inject_Z (sig53 z))).
Proof.
  intros H. cbn. apply Z.ltb_lt in H. rewrite H. reflexivity.
Qed.

(** Where [float()] gives an infinity: on an infinity, and on a string that
    reads as one. *)
Lemma py_float_infinite (float_of_str : string -> option pyfloat) (v : value)
    (negative : bool) :
  py_float float_of_str v = Ok (Infinity negative)
  <-> v = VFloat (Infinity negative)
      \/ exists s, v = VStr s /\ float_of_str s = Some (Infinity negative).
Proof.
  split.
  - destruct v as [|b|z|x|s|l|d]; cbn; try discriminate.
    + destruct (Z.abs z <? float_int_bound)%Z; discriminate.
    + intros [= ->]. left. reflexivity.
    + destruct (float_of_str s) as [x|] eqn:E; [|discriminate].
      intros [= ->]. right. exists s. split; [reflexivity|exact E].
  - intros [-> | (s & -> & Hs)]; cbn; [reflexivity|]. rewrite Hs. reflexivity.
Qed.

Lemma int_of_float_integer (n : Z) : int_of_float (inject_Z n) = n.
Proof.
  unfold int_of_float. destruct (Qle_bool 0 (inject_Z n));
    [apply Qfloor_Z | apply Qceiling_Z].
Qed.

Lemma safe_float_fails (float_of_str : string -> option pyfloat) (v : value) (e : exn) :
  _safe_float float_of_str v = Raise e ->
  e = OverflowError /\ exists z, v = VInt z /\ (float_int_bound <= Z.abs z)%Z.
Proof.
  unfold _safe_float, or_default. destruct (is_none v); [discriminate|].
  destruct (py_float float_of_str v) as [x|e'] eqn:E; [discriminate|].
  destruct (caught e') eqn:C; [discriminate|]. intros [= <-].
  apply (py_float_fails float_of_str v e' E C).
Qed.

Lemma safe_int_fails (float_of_str : string -> option pyfloat) (v : value) (e : exn) :
  _safe_int float_of_str v = Raise e ->
  e = OverflowError
  /\ ((exists z, v = VInt z /\ (float_int_bound <= Z.abs z)%Z)
      \/ exists negative, py_float float_of_str v = Ok (Infinity negative)).
Proof.
  unfold _safe_int, or_default. destruct (is_none v); [discriminate|].
  destruct (py_float float_of_str v) as [x|e'] eqn:E; cbn.
  - destruct x as [q|negative|]; cbn; [discriminate| |discriminate].
    intros [= <-]. split; [reflexivity|]. right. exists negative. reflexivity.
  - destruct (caught e') eqn:C; [discriminate|]. intros [= <-].
    destruct (py_float_fails float_of_str v e' E C) as [-> Hz].
    split; [reflexivity|]. left. exact Hz.
Qed.

Lemma safe_int_of_infinity (float_of_str : string -> option pyfloat) (v : value)
    (negative : bool) :
  py_float float_of_str v = Ok (Infinity negative) ->
  _safe_int float_of_str v = Raise OverflowError.
Proof.
  intros H. unfold _safe_int, or_default.
  destruct (is_none v) eqn:Hn.
  - destruct v; try discriminate Hn. discriminate H.
  - rewrite H. reflexivity.
Qed.

(** X10. The safe coercions swallow [ValueError] and [TypeError] only, so an
    [OverflowError] escapes them. [_safe_float] fails for exactly one kind of
    value: an integer too large for a float (magnitude at least
    [2^1024 - 2^970]). [_safe_int] fails for exactly these and for the values
    that [float()] turns into an infinity (an infinite float, or a string
    such as ["inf"] or ["1e999"]), on which [int()] overflows. A value that
    [float()] turns into NaN gives NaN and 0, and an integer a float can hold
    gives the integer of 53 significant bits nearest to it. *)
Theorem safe_coercions_fail_only_on_overflow
    (float_of_str : string -> option pyfloat) (v : value) :
  (forall e, _safe_float float_of_str v = Raise e
             <-> e = OverflowError
                 /\ exists z, v = VInt z /\ (float_int_bound <= Z.abs z)%Z)
  /\ (forall e, _safe_int float_of_str v = Raise e
                <-> e = OverflowError
                    /\ ((exists z, v = VInt z /\ (float_int_bound <= Z.abs z)%Z)
                        \/ (exists negative, v = VFloat (Infinity negative))
                        \/ (exists s negative,
                              v = VStr s
                              /\ float_of_str s = Some (Infinity negative))))
  /\ (py_float float_of_str v = Ok NaN ->
      _safe_float float_of_str v = Ok NaN /\ _safe_int float_of_str v = Ok 0%Z)
  /\ (forall z, v = VInt z -> (Z.abs z < float_int_bound)%Z ->
                _safe_float float_of_str v = Ok (Finite (inject_Z (sig53 z)))
                /\ _safe_int float_of_str v = Ok (sig53 z)).
Proof.
  split; [|split; [|split]].
  - intros e. split; [exact (safe_float_fails float_of_str v e)|].
    intros (-> & z & -> & Hz). unfold _safe_float, or_default. cbn [is_none].
    rewrite (py_float_huge float_of_str z Hz). reflexivity.
  - intros e. split.
    + intros H. destruct (safe_int_fails float_of_str v e H) as [-> Hwhy].
      split; [reflexivity|].
      destruct Hwhy as [Hz | [negative Hinf]]; [left; exact Hz|right].
      apply py_float_infinite in Hinf as [-> | (s & -> & Hs)].
      * left. exists negative. reflexivity.
      * right. exists s, negative. split; [reflexivity|exact Hs].
    + intros (-> & [(z & -> & Hz) | [(negative & ->) | (s & negative & -> & Hs)]]).
      * unfold _safe_int, or_default. cbn [is_none].
        rewrite (py_float_huge float_of_str z Hz). reflexivity.
      * apply (safe_int_of_infinity float_of_str _ negative). reflexivity.
      * apply (safe_int_of_infinity float_of_str _ negative).
        apply py_float_infinite. right. exists s. split; [reflexivity|exact Hs].
  - intros Hnan. unfold _safe_float, _safe_int, or_default.
    destruct (is_none v) eqn:Hn.
    + destruct v; try discriminate Hn. discriminate Hnan.
    + rewrite Hnan. split; reflexivity.
  - intros z -> Hz. unfold _safe_float, _safe_int, or_default. cbn [is_none].
    rewrite (py_float_fits float_of_str z Hz). cbn.
    rewrite int_of_float_integer. split; reflexivity.
Qed.

Lemma safe_coercions_fail_only_on_overflow_witness :
  (_safe_float (fun _ => None) (VInt (2 ^ 1024)) = Raise OverflowError
   /\ _safe_int (fun _ => None) (VInt (2 ^ 1024)) = Raise OverflowError)
  /\ _safe_int (fun _ => Some (Infinity false)) (VStr "inf") = Raise OverflowError
  /\ _safe_int (fun _ => None) (VInt (2 ^ 53 + 1)) = Ok (2 ^ 53)%Z.
Proof.
  split; [split|split].
  - apply (proj1 (safe_coercions_fail_only_on_overflow (fun _ => None)
                    (VInt (2 ^ 1024)))).
    split; [reflexivity|]. exists (2 ^ 1024)%Z. split; [reflexivity|].
    vm_compute. discriminate.
  - apply (proj1 (proj2 (safe_coercions_fail_only_on_overflow (fun _ => None)
                           (VInt (2 ^ 1024))))).
    split; [reflexivity|]. left. exists (2 ^ 1024)%Z. split; [reflexivity|].
    vm_compute. discriminate.
  - apply (proj1 (proj2 (safe_coercions_fail_only_on_overflow
                           (fun _ => Some (Infinity false)) (VStr "inf")))).
    split; [reflexivity|]. right. right. exists "inf", false.
    split; reflexivity.
  - apply (proj2 (proj2 (proj2 (safe_coercions_fail_only_on_overflow
                                  (fun _ => None) (VInt (2 ^ 53 + 1)))))
             (2 ^ 53 + 1)%Z).
    + reflexivity.
    + vm_compute. reflexivity.
Defined.






Lemma usable_no_error (d : dict) :
  unusable (Some d) = false -> d !! "error" = None /\ d <> ∅.
Proof.
  unfold unusable, py_not, has_key. intros H.
  apply orb_false_elim in H as [Hsize Herr].
  apply bool_decide_eq_false in Hsize. apply bool_decide_eq_false in Herr.
  split.
  - destruct (d !! "error") as [v|] eqn:E; [|reflexivity].
    exfalso. apply Herr. exists v. reflexivity.
  - intros ->. apply Hsize. apply map_size_empty.
Qed.

(** X12. The merge of two usable payloads has exactly the keys of the primary,
    the keys of the fallback and the three provenance keys, and is itself
    usable: it is not empty and carries no error marker, so it can be cached
    and normalised like a vendor payload. *)
Theorem merge_is_a_usable_union (p f : dict) :
  unusable (Some p) = false -> unusable (Some f) = false ->
  exists merged : dict,
    merge_data_sources (Some p) (Some f) = Some merged
    /\ (forall key : string,
          is_Some (merged !! key)
          <-> is_Some (p !! key) \/ is_Some (f !! key) \/ key ∈ provenance_keys)
    /\ unusable (Some merged) = false.
Proof.
  intros Hp Hf. exists (stamp p f (map_fold fill_step p f)).
  split; [apply MergeFacts.merge_usable; assumption|].
  assert (Hkeys : forall key : string,
    is_Some (stamp p f (map_fold fill_step p f) !! key)
    <-> is_Some (p !! key) \/ is_Some (f !! key) \/ key ∈ provenance_keys).
  { intros key. destruct (decide (key ∈ provenance_keys)) as [Hin|Hnin].
    - split; [intros _; right; right; exact Hin|]. intros _.
      unfold provenance_keys in Hin. unfold stamp.
      repeat (apply elem_of_cons in Hin as [->|Hin]);
        [| | |inversion Hin].
      + rewrite !lookup_insert_ne by discriminate.
        rewrite lookup_insert_eq. eexists; reflexivity.
      + rewrite lookup_insert_ne by discriminate.
        rewrite lookup_insert_eq. eexists; reflexivity.
      + rewrite lookup_insert_eq. eexists; reflexivity.
    - rewrite MergeFacts.stamp_other by exact Hnin.
      rewrite MergeFacts.fill_lookup.
      destruct (f !! key) as [v|] eqn:Hfk.
      + split; [intros _; right; left; eexists; reflexivity|]. intros _.
        unfold needs_fill. destruct (p !! key) as [pv|] eqn:Hpk;
          [|eexists; reflexivity].
        destruct (is_none pv || eq_zero pv); eexists; reflexivity.
      + split; [intros H; left; exact H|].
        intros [H | [[x Hx] | H]]; [exact H|discriminate Hx|contradiction]. }
  split; [exact Hkeys|].
  destruct (usable_no_error p Hp) as [Hpe _].
  destruct (usable_no_error f Hf) as [Hfe _].
  unfold unusable, py_not, has_key. apply orb_false_intro.
  - apply bool_decide_eq_false. intros Hsize.
    apply map_size_empty_iff in Hsize.
    assert (Hm : is_Some (stamp p f (map_fold fill_step p f) !! "merged")).
    { apply Hkeys. right; right. unfold provenance_keys.
      do 2 apply list_elem_of_further. apply list_elem_of_here. }
    rewrite Hsize, lookup_empty in Hm. destruct Hm as [x Hx]. discriminate Hx.
  - apply bool_decide_eq_false. intros Herr. apply Hkeys in Herr.
    destruct Herr as [[x Hx] | [[x Hx] | Hin]]; [congruence|congruence|].
    unfold provenance_keys in Hin.
    repeat (apply elem_of_cons in Hin as [Hin|Hin]; [discriminate Hin|]).
    inversion Hin.
Qed.

Lemma merge_is_a_usable_union_witness :
  exists merged : dict,
    merge_data_sources (Some Examples.nse_quote) (Some Examples.yahoo_quote)
      = Some merged
    /\ unusable (Some merged) = false.
Proof.
  destruct (merge_is_a_usable_union Examples.nse_quote Examples.yahoo_quote)
    as (merged & Hm & _ & Hu).
  - vm_compute. reflexivity.
  - vm_compute. reflexivity.
  - exists merged. split; assumption.
Defined.

(** X13. A price record is rejected ([is_valid] false) exactly when its price
    is not positive, its timestamp is missing, and on top of that its volume
    is not positive or its change exceeds 20%. Its score never falls below
    35. *)
Theorem price_record_rejected_exactly_when (p : NormalizedPrice) :
  is_valid (validate_data_quality (OfPrice p))
    = negb (le_zero (price p)
            && negb (truthy (timestamp p))
            && ((volume p <=? 0)%Z
                || abs_exceeds (change_percent p) 20))
  /\ (35 <= quality_score (validate_data_quality (OfPrice p)))%Z.
Proof.
  cbn. rewrite QualityFacts.price_score.
  destruct (le_zero (price p)), (volume p <=? 0)%Z, (truthy (timestamp p)),
    (abs_exceeds (change_percent p) 20); cbn; split; (reflexivity || lia).
Qed.

(** X14. A historical series is rejected exactly when its count is zero or
    too large for a float (magnitude at least [2^1024 - 2^970], where the
    product [count * 0.9] raises and the validation-error report is
    returned). With a count too large the score is 0; with any other count
    but zero it is at least 65. *)
Theorem series_rejected_exactly_when (h : NormalizedHistoricalData) :
  is_valid (validate_data_quality (OfHistorical h))
    = negb (hist_count h =? 0)%Z && (Z.abs (hist_count h) <? float_int_bound)%Z
  /\ (hist_count h <> 0%Z -> (Z.abs (hist_count h) < float_int_bound)%Z ->
      (65 <= quality_score (validate_data_quality (OfHistorical h)))%Z)
  /\ ((float_int_bound <= Z.abs (hist_count h))%Z ->
      quality_score (validate_data_quality (OfHistorical h)) = 0%Z).
Proof.
  unfold validate_data_quality.
  destruct (Z.abs (hist_count h) <? float_int_bound)%Z eqn:Efit.
  - apply Z.ltb_lt in Efit.
    destruct (QualityFacts.historical_score h Efit) as (st & -> & Hst).
    cbn. rewrite Hst.
    destruct (hist_count h =? 0)%Z eqn:E0.
    + apply Z.eqb_eq in E0.
      destruct (_ * 2 ^ 53 <? _)%Z; cbn;
        (split; [reflexivity|split; [intros H; contradiction|intros H; lia]]).
    + destruct (hist_count h <? 10)%Z, (_ * 2 ^ 53 <? _)%Z; cbn;
        (split; [reflexivity|split; intros; lia]).
  - apply Z.ltb_ge in Efit.
    rewrite (QualityFacts.historical_overflow h Efit). cbn.
    split; [rewrite andb_false_r; reflexivity|].
    split; [intros _ H; lia|reflexivity].
Qed.

Lemma series_rejected_exactly_when_witness :
  (65 <= quality_score (validate_data_quality (OfHistorical Scenarios.short_series)))%Z.
Proof.
  apply (proj1 (proj2 (series_rejected_exactly_when Scenarios.short_series))).
  - vm_compute. discriminate.
  - vm_compute. reflexivity.
Defined.

(** X15. Whatever is validated, the score lies between 0 and 100, and the
    list of issues is empty exactly when the score is 100. *)
Theorem score_range_and_issues (data : quality_input) :
  (0 <= quality_score (validate_data_quality data) <= 100)%Z
  /\ (issues (validate_data_quality data) = []
      <-> quality_score (validate_data_quality data) = 100%Z).
Proof.
  unfold validate_data_quality. destruct data as [p|h|d]; cbn.
  - unfold score_price, deduct.
    destruct (le_zero (price p)), (volume p <=? 0)%Z, (truthy (timestamp p)),
      (abs_exceeds (change_percent p) 20); cbn;
      (split; [lia|split; (discriminate || reflexivity)]).
  - unfold score_historical, too_few_timestamps.
    destruct (Z.abs (hist_count h) <? float_int_bound)%Z; cbn [obind];
      [|cbn; split; [lia|split; discriminate]].
    unfold deduct.
    destruct (hist_count h =? 0)%Z, (hist_count h <? 10)%Z,
      (_ * 2 ^ 53 <? _)%Z; cbn;
      (split; [lia|split; (discriminate || reflexivity)]).
  - split; [lia|split; reflexivity].
Qed.

End NormalizerMoreFacts.

(** * Further properties of symbol normalization *)

Module SymbolMoreFacts.
Import PyStr StringFacts SymbolFacts.

Lemma yahoo_indices_are_carets :
  Forall (fun kv : string * string => startswith kv.2 "^" = true)
    Yahoo.indian_indices.
Proof. repeat constructor; vm_compute; reflexivity. Qed.

(** X16. Every symbol the library-backed adapter sends to the vendor is
    either an index ticker, starting with [^], or carries the [.NS] suffix. *)
Theorem yahoo_symbol_shape (s : string) :
  endswith (Yahoo.normalize_symbol s) ".NS" = true
  \/ startswith (Yahoo.normalize_symbol s) "^" = true.
Proof.
  unfold Yahoo.normalize_symbol.
  destruct (assoc (upper (strip s)) Yahoo.indian_indices) as [v|] eqn:Ha.
  - right. apply assoc_elem in Ha.
    exact (proj1 (Forall_forall _ _) yahoo_indices_are_carets _ Ha).
  - destruct (endswith (upper (strip s)) ".NS") eqn:He; cbn.
    + left. exact He.
    + destruct (startswith (upper (strip s)) "^") eqn:Hs; cbn.
      * right. exact Hs.
      * left. apply endswith_app.
Qed.

Lemma plain_normal (s t suf : string) :
  upper (strip s) = t +:+ suf -> plain_name t = true -> upper (strip t) = t.
Proof.
  intros Hu Hp. rewrite (plain_strip t Hp).
  apply (upper_prefix t suf). rewrite <- Hu. apply upper_normal.
Qed.

Lemma yahoo_on_ticker (s t suf : string) :
  upper (strip s) = t +:+ suf -> plain_name t = true ->
  suf ∈ [""; ".NS"]%string ->
  assoc t Yahoo.indian_indices = None -> startswith t "^" = false ->
  Yahoo.normalize_symbol s = t +:+ ".NS".
Proof.
  intros Hu Hp Hsuf Ha Hc. unfold Yahoo.normalize_symbol. rewrite Hu.
  repeat (apply elem_of_cons in Hsuf as [->|Hsuf]); [| |inversion Hsuf].
  - rewrite append_empty, Ha, Hc.
    rewrite (plain_no_suffix t ".NS" _ Hp eq_refl). reflexivity.
  - rewrite (yahoo_suffixed_not_index _ (endswith_app t ".NS")).
    rewrite endswith_app. reflexivity.
Qed.

(** X17. The two adapters name the same instrument. For a ticker that is not
    an index (a name without dot or white space, not starting with [^] and
    not in the index table, with or without the [.NS] suffix) the Yahoo rule
    gives [NAME.NS] and the NSE rule gives [NAME], and each rule applied to
    the other's result gives its own result again. *)
Theorem adapters_agree_on_tickers (s t suf : string) :
  upper (strip s) = t +:+ suf -> plain_name t = true ->
  suf ∈ [""; ".NS"]%string ->
  assoc t Yahoo.indian_indices = None -> startswith t "^" = false ->
  Yahoo.normalize_symbol s = t +:+ ".NS"
  /\ NSE.normalize_symbol s = t
  /\ NSE.normalize_symbol (Yahoo.normalize_symbol s) = t
  /\ Yahoo.normalize_symbol (NSE.normalize_symbol s) = t +:+ ".NS".
Proof.
  intros Hu Hp Hsuf Ha Hc.
  pose proof (plain_normal s t suf Hu Hp) as Ht.
  assert (Hy : Yahoo.normalize_symbol s = t +:+ ".NS")
    by (apply (yahoo_on_ticker s t suf); assumption).
  assert (Hn : NSE.normalize_symbol s = t).
  { apply (nse_result s t suf Hu Hp).
    repeat (apply elem_of_cons in Hsuf as [->|Hsuf]); [| |inversion Hsuf].
    - apply list_elem_of_here.
    - apply list_elem_of_further, list_elem_of_here. }
  split; [exact Hy|]. split; [exact Hn|]. split.
  - rewrite Hy. apply (nse_result (t +:+ ".NS") t ".NS"); [|exact Hp|].
    + rewrite <- Ht at 1. rewrite normal_suffixed_fixed, Ht. reflexivity.
    + apply list_elem_of_further, list_elem_of_here.
  - rewrite Hn. apply (yahoo_on_ticker t t ""); try assumption.
    + rewrite append_empty. exact Ht.
    + apply list_elem_of_here.
Qed.

Lemma adapters_agree_on_tickers_witness :
  Yahoo.normalize_symbol " reliance " = "RELIANCE.NS"%string
  /\ NSE.normalize_symbol " reliance " = "RELIANCE"%string
  /\ NSE.normalize_symbol (Yahoo.normalize_symbol " reliance ") = "RELIANCE"%string
  /\ Yahoo.normalize_symbol (NSE.normalize_symbol " reliance ")
     = "RELIANCE.NS"%string.
Proof.
  apply (adapters_agree_on_tickers " reliance " "RELIANCE" "").
  - vm_compute. reflexivity.
  - vm_compute. reflexivity.
  - apply list_elem_of_here.
  - vm_compute. reflexivity.
  - vm_compute. reflexivity.
Defined.

End SymbolMoreFacts.

(** * Further properties of the adapters *)

Module AdapterMoreFacts.
Import BaseClient.

Lemma error_payload_shape (msg symbol : string) :
  has_key "error" (error_payload msg symbol) = true
  /\ error_payload msg symbol !! "symbol" = Some (VStr symbol)
  /\ error_payload msg symbol !! "data" = None.
Proof. repeat split; reflexivity. Qed.

(** X18. What [YahooFinanceClient.get_historical_data] returns is either an
    error payload that names the symbol and has no data, or a payload without
    error marker whose [data] are the rows the library returned (at least
    one), whose [count] is their number and whose source is [yahoo_finance].
    The library is queried at most once, with the normalised symbol, and not
    at all exactly when the period or the interval is not allowed. *)
Theorem yahoo_history_contract (runtime_text : exn -> string)
    (history : string -> string -> string -> outcome (list Yahoo.bar))
    (symbol period interval : string) :
  let out := Yahoo.get_historical_data runtime_text history symbol period interval in
  let ticker := Yahoo.normalize_symbol symbol in
  (out.2 = [] \/ out.2 = [LibraryQuery ticker period interval])
  /\ (out.2 = [] <-> validate_period period && validate_interval interval = false)
  /\ (has_key "error" out.1 = true ->
      out.1 !! "symbol" = Some (VStr symbol) /\ out.1 !! "data" = None)
  /\ (has_key "error" out.1 = false ->
      exists hist : list Yahoo.bar,
        history ticker period interval = Ok hist
        /\ hist <> []
        /\ out.1 !! "data" = Some (VList (map Yahoo.bar_value hist))
        /\ out.1 !! "count" = Some (VInt (Z.of_nat (length hist)))
        /\ out.1 !! "source" = Some (VStr "yahoo_finance")).
Proof.
  cbn zeta. unfold Yahoo.get_historical_data.
  destruct (validate_period period); cbn [negb andb].
  2: { split; [left; reflexivity|]. split; [split; reflexivity|].
       split; [intros _; split; reflexivity|]. cbn. discriminate. }
  destruct (validate_interval interval); cbn [negb].
  2: { split; [left; reflexivity|]. split; [split; reflexivity|].
       split; [intros _; split; reflexivity|]. cbn. discriminate. }
  destruct (history (Yahoo.normalize_symbol symbol) period interval)
    as [[|row rows]|e] eqn:Hh; cbn [fst snd].
  - split; [right; reflexivity|]. split; [split; discriminate|].
    split; [intros _; split; reflexivity|]. cbn. discriminate.
  - split; [right; reflexivity|]. split; [split; discriminate|].
    split; [cbn; discriminate|]. intros _.
    exists (row :: rows). split; [reflexivity|]. split; [discriminate|].
    split; [reflexivity|]. split; [|reflexivity].
    rewrite !lookup_insert_ne by discriminate. rewrite lookup_insert_eq.
    rewrite length_map. reflexivity.
  - split; [right; reflexivity|]. split; [split; discriminate|].
    split; [intros _; split; reflexivity|]. cbn. discriminate.
Qed.

Lemma yahoo_history_contract_witness :
  exists hist : list Yahoo.bar,
    Scenarios.history_one_bar (Yahoo.normalize_symbol "tcs") "1y" "1d" = Ok hist
    /\ (Yahoo.get_historical_data (fun _ => "") Scenarios.history_one_bar
          "tcs" "1y" "1d").1 !! "count"
       = Some (VInt (Z.of_nat (length hist))).
Proof.
  destruct (yahoo_history_contract (fun _ => ""%string)
              Scenarios.history_one_bar "tcs" "1y" "1d")
    as (_ & _ & _ & Hok).
  destruct Hok as (hist & Hh & _ & _ & Hcount & _).
  - vm_compute. reflexivity.
  - exists hist. split; [exact Hh|exact Hcount].
Defined.

Lemma nse_session_held (runtime_text : exn -> string)
    (float_of_str : string -> option pyfloat)
    (http_get : string -> list (string * string) -> outcome NSE.http_response)
    (session : bool) (symbol period interval : string) :
  (NSE.get_historical_data runtime_text float_of_str http_get session
     symbol period interval).1.2 = true.
Proof.
  unfold NSE.get_historical_data, NSE._get_session.
  destruct session; cbn;
    (destruct (http_get _ _) as [response|e]; [|reflexivity];
     destruct (NSE.status response =? 200)%Z; [|reflexivity];
     destruct (NSE.json response); reflexivity).
Qed.

(** X19. The exchange scraper primes its cookies once. A call made without a
    session visits the home page and then sends the chart request; it always
    leaves a session behind, so the call after it sends the chart request
    alone, whatever the exchange answered in between. *)
Theorem nse_primes_cookies_once (runtime_text : exn -> string)
    (float_of_str : string -> option pyfloat)
    (http_get : string -> list (string * string) -> outcome NSE.http_response)
    (symbol period interval symbol' period' interval' : string) :
  let first :=
    NSE.get_historical_data runtime_text float_of_str http_get false
      symbol period interval in
  let second :=
    NSE.get_historical_data runtime_text float_of_str http_get first.1.2
      symbol' period' interval' in
  first.2
    = [HttpGet "https://www.nseindia.com" [];
       HttpGet (NSE.base_url +:+ "/chart-databyindex")
         [("index", NSE.normalize_symbol symbol +:+ "EQN"); ("indices", "true")]]
  /\ second.2
     = [HttpGet (NSE.base_url +:+ "/chart-databyindex")
          [("index", NSE.normalize_symbol symbol' +:+ "EQN"); ("indices", "true")]]
  /\ second.1.2 = true.
Proof.
  cbn zeta. rewrite !nse_session_held.
  rewrite !AdapterFacts.nse_always_requests. repeat split.
Qed.

Lemma parse_success_shape (symbol period interval : string)
    (parsed_data : list value) :
  let r : dict :=
    <["symbol" := VStr symbol]>
    (<["period" := VStr period]>
    (<["interval" := VStr interval]>
    (<["data" := VList parsed_data]>
    (<["count" := VInt (Z.of_nat (length parsed_data))]>
    (<["source" := VStr "nse"]>
    (<["note" := VStr "NSE provides limited historical data"]> ∅)))))) in
  has_key "error" r = false
  /\ r !! "symbol" = Some (VStr symbol)
  /\ r !! "data" = Some (VList parsed_data)
  /\ r !! "count" = Some (VInt (Z.of_nat (length parsed_data))).
Proof. repeat split; reflexivity. Qed.

(** X20. [NSEClient._parse_historical_data] never fails: it returns either a
    bare error payload (no symbol, no data) or a payload without error marker
    that names the symbol and whose [count] is the number of its points. A
    response object that lacks the chart key is not an error: it gives a
    payload with zero points, and so does a 200 response with such a body
    through [get_historical_data]. *)
Theorem nse_chart_parse_contract (runtime_text : exn -> string)
    (float_of_str : string -> option pyfloat) (data : value)
    (symbol period interval : string) :
  let r :=
    NSE._parse_historical_data runtime_text float_of_str data
      symbol period interval in
  ((has_key "error" r = true /\ r !! "symbol" = None /\ r !! "data" = None)
   \/ (has_key "error" r = false
       /\ r !! "symbol" = Some (VStr symbol)
       /\ exists points : list value,
            r !! "data" = Some (VList points)
            /\ r !! "count" = Some (VInt (Z.of_nat (length points)))))
  /\ (forall d : list (string * value),
        data = VDict d -> assoc "grapthData" d = None ->
        has_key "error" r = false
        /\ r !! "data" = Some (VList [])
        /\ r !! "count" = Some (VInt 0)
        /\ forall (http_get : string -> list (string * string)
                              -> outcome NSE.http_response)
                  (session : bool),
             http_get (NSE.base_url +:+ "/chart-databyindex")
               [("index", NSE.normalize_symbol symbol +:+ "EQN");
                ("indices", "true")]
               = Ok {| NSE.status := 200; NSE.json := Ok data |} ->
             (NSE.get_historical_data runtime_text float_of_str http_get
                session symbol period interval).1.1 = r).
Proof.
  cbn zeta. split.
  - unfold NSE._parse_historical_data.
    destruct (match data with
              | VDict d =>
                  obind (NSE.iter_value
                           match assoc "grapthData" d with
                           | Some v => v
                           | None => VList []
                           end)
                    (omap_list (NSE.parse_item float_of_str))
              | _ => Raise AttributeError
              end) as [parsed_data|e].
    + right. destruct (parse_success_shape symbol period interval parsed_data)
        as (H1 & H2 & H3 & H4).
      split; [exact H1|]. split; [exact H2|].
      exists parsed_data. split; [exact H3|exact H4].
    + left. repeat split; reflexivity.
  - intros d -> Hd. unfold NSE._parse_historical_data. rewrite Hd. cbn.
    split; [reflexivity|]. split; [reflexivity|]. split; [reflexivity|].
    intros http_get session Hreply.
    unfold NSE.get_historical_data, NSE._get_session.
    destruct session; cbn; rewrite Hreply; cbn;
      unfold NSE._parse_historical_data; rewrite Hd; reflexivity.
Qed.

Lemma nse_chart_parse_contract_witness :
  NSE._parse_historical_data (fun _ => "") (fun _ => None)
    (VDict [("identifier", VStr "TCSEQN")]) "TCS" "1y" "1d" !! "count"
  = Some (VInt 0).
Proof.
  destruct (proj2 (nse_chart_parse_contract (fun _ => ""%string) (fun _ => None)
                     (VDict [("identifier", VStr "TCSEQN")]) "TCS" "1y" "1d")
              [("identifier", VStr "TCSEQN")] eq_refl eq_refl)
    as (_ & _ & Hcount & _).
  exact Hcount.
Defined.

End AdapterMoreFacts.

(** * Further properties of the orchestrator *)

Module OrchestratorMoreFacts.
Import Orchestrator Requests.

Section Request.

Variable float_of_str : string -> option pyfloat.
Variable nse yahoo : string -> outcome dict.

Lemma usable_not_empty (d : dict) : usable d = true -> py_not (Some d) = false.
Proof.
  unfold usable. intros H. apply andb_true_iff in H as [H _].
  apply negb_true_iff in H. exact H.
Qed.

Lemma answer_usable (r : outcome dict) (d : dict) :
  answer r = Some d -> r = Ok d /\ usable d = true.
Proof.
  unfold answer. destruct r as [data|e]; [|discriminate].
  destruct (usable data) eqn:E; [|discriminate].
  intros [= <-]. split; [reflexivity|exact E].
Qed.

Lemma answer_none (r : outcome dict) :
  answer r = None ->
  match r with Ok data => usable data = false | Raise _ => True end.
Proof.
  unfold answer. destruct r as [data|e]; [|intros _; exact I].
  destruct (usable data); [discriminate|reflexivity].
Qed.

(** The loop over the two sources of the real-time priority list. *)
Lemma try_sources_priority (symbol : string) :
  try_sources nse yahoo (priority_of "real_time") symbol fresh
  = match answer (nse symbol) with
    | Some d =>
        {| primary_data := Some d; fallback_data := None; consulted := ["nse"] |}
    | None =>
        match answer (yahoo symbol) with
        | Some d =>
            {| primary_data := Some d; fallback_data := None;
               consulted := ["nse"; "yahoo"] |}
        | None =>
            {| primary_data := None; fallback_data := None;
               consulted := ["nse"; "yahoo"] |}
        end
    end.
Proof.
  change (priority_of "real_time") with ["nse"; "yahoo"]%string.
  unfold answer. cbn.
  destruct (nse symbol) as [d1|e1]; cbn.
  - destruct (usable d1); cbn; [reflexivity|].
    destruct (yahoo symbol) as [d2|e2]; cbn; [|reflexivity].
    destruct (usable d2); reflexivity.
  - destruct (yahoo symbol) as [d2|e2]; cbn; [|reflexivity].
    destruct (usable d2); reflexivity.
Qed.

(** A request is a cache hit, or else the loop followed by [conclude]. *)
Lemma request_unfold (t_get t_set : Z) (now_iso : string)
    (w : Cache.write_outcome) (symbol : string) (use_cache : bool)
    (cache_manager : option (Cache.store dict)) :
  get_real_time_price float_of_str nse yahoo t_get t_set now_iso w symbol
    use_cache cache_manager
  = match cached_hit t_get symbol use_cache cache_manager with
    | Some d =>
        {| result := Normalizer.normalize_price_data float_of_str now_iso d;
           cache_after := cache_after_read t_get symbol use_cache cache_manager;
           sources_called := [];
           cached_payload := None |}
    | None =>
        conclude float_of_str t_set now_iso w symbol use_cache
          (try_sources nse yahoo (priority_of "real_time") symbol fresh)
          (cache_after_read t_get symbol use_cache cache_manager)
    end.
Proof.
  unfold get_real_time_price, cached_hit, cache_after_read.
  destruct cache_manager as [st|]; [|reflexivity].
  destruct use_cache; [|reflexivity].
  destruct (Cache.get t_get "real_time" symbol [] st) as [[d|] st']; cbn;
    [|reflexivity].
  destruct (bool_decide (size d = 0%nat)); reflexivity.
Qed.

Lemma conclude_with_primary (t_set : Z) (now_iso : string)
    (w : Cache.write_outcome) (symbol : string) (use_cache : bool)
    (d : dict) (called : list string)
    (cache_manager : option (Cache.store dict)) :
  usable d = true ->
  conclude float_of_str t_set now_iso w symbol use_cache
    {| primary_data := Some d; fallback_data := None; consulted := called |}
    cache_manager
  = {| result := Normalizer.normalize_price_data float_of_str now_iso d;
       cache_after :=
         match cache_manager with
         | Some st =>
             if use_cache
             then Some (Cache.set t_set w "real_time" symbol d [] st).2
             else cache_manager
         | None => None
         end;
       sources_called := called;
       cached_payload :=
         match cache_manager with
         | Some _ => if use_cache then Some d else None
         | None => None
         end |}.
Proof.
  intros Hu. unfold conclude. cbn [primary_data fallback_data consulted].
  rewrite (usable_not_empty d Hu). cbn [negb py_not].
  destruct cache_manager as [st|]; [|reflexivity].
  destruct use_cache; reflexivity.
Qed.

End Request.

(** X21. Exhaustion: when the cache has nothing to offer and neither adapter
    gives a usable payload (each returns an error payload, an empty one, or
    raises), [get_real_time_price] returns none after consulting the exchange
    scraper and then the library, and writes nothing to the cache. *)
Theorem exhaustion_returns_none (float_of_str : string -> option pyfloat)
    (nse yahoo : string -> outcome dict) (t_get t_set : Z) (now_iso : string)
    (w : Cache.write_outcome) (symbol : string) (use_cache : bool)
    (cache_manager : option (Cache.store dict)) :
  cached_hit t_get symbol use_cache cache_manager = None ->
  answer (nse symbol) = None -> answer (yahoo symbol) = None ->
  get_real_time_price float_of_str nse yahoo t_get t_set now_iso w symbol
    use_cache cache_manager
  = {| result := None;
       cache_after := cache_after_read t_get symbol use_cache cache_manager;
       sources_called := ["nse"; "yahoo"];
       cached_payload := None |}.
Proof.
  intros Hmiss Hn Hy. rewrite request_unfold, Hmiss, try_sources_priority, Hn, Hy.
  reflexivity.
Qed.

Lemma exhaustion_returns_none_witness :
  get_real_time_price (fun _ => None) Scenarios.nse_fails Scenarios.yahoo_raises
    0 0 "2024-01-01T12:00:00" Cache.Written "BOGUS123" true
    (Some Examples.no_cache_yet)
  = {| result := None;
       cache_after := Some Examples.no_cache_yet;
       sources_called := ["nse"; "yahoo"];
       cached_payload := None |}.
Proof.
  apply (exhaustion_returns_none (fun _ => None) Scenarios.nse_fails
           Scenarios.yahoo_raises 0 0 "2024-01-01T12:00:00" Cache.Written
           "BOGUS123" true (Some Examples.no_cache_yet));
    vm_compute; reflexivity.
Defined.

(** X22. A cache hit skips the adapters: when caching is on and the memory
    tier holds a still-valid entry for the symbol with a non-empty payload,
    [get_real_time_price] calls no adapter, leaves the cache as it is and
    returns the normalisation of the cached payload. *)
Theorem cache_hit_skips_adapters (float_of_str : string -> option pyfloat)
    (nse yahoo : string -> outcome dict) (t_get t_set : Z) (now_iso : string)
    (w : Cache.write_outcome) (symbol : string) (st : Cache.store dict)
    (e : Cache.cache_entry dict) :
  Cache.memory_cache st !! Cache._get_cache_key "real_time" symbol [] = Some e ->
  Cache._is_cache_valid t_get e "real_time" = true ->
  Cache.data e <> ∅ ->
  get_real_time_price float_of_str nse yahoo t_get t_set now_iso w symbol
    true (Some st)
  = {| result := Normalizer.normalize_price_data float_of_str now_iso (Cache.data e);
       cache_after := Some st;
       sources_called := [];
       cached_payload := None |}.
Proof.
  intros Hm Hv Hne.
  assert (Hget : Cache.get t_get "real_time" symbol [] st
                 = (Some (Cache.data e), st))
    by (unfold Cache.get;
        change (Cache.cache_key_of "real_time" symbol [])
          with (Ok (Cache._get_cache_key "real_time" symbol []));
        cbn beta iota zeta; rewrite Hm, Hv; reflexivity).
  assert (Hfull : py_not (Some (Cache.data e)) = false).
  { unfold py_not. apply bool_decide_eq_false. intros Hsize.
    apply Hne. apply map_size_empty_iff. exact Hsize. }
  rewrite request_unfold. unfold cached_hit, cache_after_read.
  rewrite Hget. cbn [fst snd]. rewrite Hfull. reflexivity.
Qed.

Lemma cache_hit_skips_adapters_witness :
  sources_called
    (get_real_time_price (fun _ => None) Examples.nse_answers
       Examples.yahoo_answers 1 1 "2024-01-01T12:00:01" Cache.Written
       "RELIANCE" true (Some Scenarios.warm_cache))
  = [].
Proof.
  rewrite (cache_hit_skips_adapters (fun _ => None) Examples.nse_answers
             Examples.yahoo_answers 1 1 "2024-01-01T12:00:01" Cache.Written
             "RELIANCE" Scenarios.warm_cache
             {| Cache.cached_at := Some 0%Z; Cache.cache_type := "real_time";
                Cache.symbol := "RELIANCE"; Cache.kwargs := [];
                Cache.data := Examples.nse_quote |}).
  - reflexivity.
  - vm_compute. reflexivity.
  - vm_compute. reflexivity.
  - intros H. apply (f_equal (fun m : dict => m !! "symbol")) in H.
    vm_compute in H. discriminate H.
Defined.

(** X23. On a cache miss the payload used is the first usable answer in
    priority order: the exchange scraper's if it has one, and then the
    library is not consulted; otherwise the library's. That payload is
    normalised and, when caching is on, written to the cache as it is. *)
Theorem first_usable_answer_wins (float_of_str : string -> option pyfloat)
    (nse yahoo : string -> outcome dict) (t_get t_set : Z) (now_iso : string)
    (w : Cache.write_outcome) (symbol : string) (use_cache : bool)
    (cache_manager : option (Cache.store dict)) :
  cached_hit t_get symbol use_cache cache_manager = None ->
  let r :=
    get_real_time_price float_of_str nse yahoo t_get t_set now_iso w symbol
      use_cache cache_manager in
  let written (d : dict) :=
    match cache_manager with
    | Some _ => if use_cache then Some d else None
    | None => None
    end in
  (forall d, answer (nse symbol) = Some d ->
             sources_called r = ["nse"]
             /\ result r = Normalizer.normalize_price_data float_of_str now_iso d
             /\ cached_payload r = written d)
  /\ (forall d, answer (nse symbol) = None -> answer (yahoo symbol) = Some d ->
                sources_called r = ["nse"; "yahoo"]
                /\ result r = Normalizer.normalize_price_data float_of_str now_iso d
                /\ cached_payload r = written d).
Proof.
  intros Hmiss. cbn zeta. rewrite request_unfold, Hmiss, try_sources_priority.
  split.
  - intros d Hn. rewrite Hn.
    rewrite conclude_with_primary by (apply (answer_usable _ _ Hn)).
    cbn. unfold cache_after_read.
    destruct cache_manager as [st|]; [destruct use_cache|]; repeat split.
  - intros d Hn Hy. rewrite Hn, Hy.
    rewrite conclude_with_primary by (apply (answer_usable _ _ Hy)).
    cbn. unfold cache_after_read.
    destruct cache_manager as [st|]; [destruct use_cache|]; repeat split.
Qed.

Lemma first_usable_answer_wins_witness :
  sources_called
    (get_real_time_price (fun _ => None) Scenarios.nse_fails
       Examples.yahoo_answers 0 0 "2024-01-01T12:00:00" Cache.Written
       "RELIANCE" true (Some Examples.no_cache_yet))
  = ["nse"; "yahoo"].
Proof.
  destruct (first_usable_answer_wins (fun _ => None) Scenarios.nse_fails
              Examples.yahoo_answers 0 0 "2024-01-01T12:00:00" Cache.Written
              "RELIANCE" true (Some Examples.no_cache_yet))
    as [_ Hsecond].
  - vm_compute. reflexivity.
  - destruct (Hsecond Examples.yahoo_quote) as [Hcalled _].
    + vm_compute. reflexivity.
    + vm_compute. reflexivity.
    + exact Hcalled.
Defined.

(** X24. What a request caches serves the next one: if a request wrote a
    payload to the cache, a later request for the same symbol that comes
    before the 60 seconds of the real-time TTL are over calls no adapter and
    returns the normalisation of that payload, whatever the adapters would
    answer by then and however the file write ended. (The expiry time has to
    be one a [datetime] can hold, as it is for every write before the last
    minute of the year 9999.) *)
Theorem second_request_served_from_cache (float_of_str : string -> option pyfloat)
    (nse yahoo nse' yahoo' : string -> outcome dict)
    (t_get t_set t_get' t_set' : Z) (now_iso now_iso' : string)
    (w w' : Cache.write_outcome) (symbol : string)
    (cache_manager : option (Cache.store dict)) (use_cache : bool) (d : dict) :
  let first :=
    get_real_time_price float_of_str nse yahoo t_get t_set now_iso w symbol
      use_cache cache_manager in
  let second :=
    get_real_time_price float_of_str nse' yahoo' t_get' t_set' now_iso' w'
      symbol true (cache_after first) in
  cached_payload first = Some d ->
  (t_set + Cache.seconds 60 <= Cache.datetime_max)%Z ->
  (t_get' < t_set + Cache.seconds 60)%Z ->
  sources_called second = []
  /\ result second = Normalizer.normalize_price_data float_of_str now_iso' d
  /\ cached_payload second = None.
Proof.
  cbn zeta. intros Hcached Hfit Hfresh.
  assert (Hfirst :
    usable d = true
    /\ exists st,
         cache_after (get_real_time_price float_of_str nse yahoo t_get t_set
                        now_iso w symbol use_cache cache_manager)
         = Some (Cache.set t_set w "real_time" symbol d [] st).2).
  { revert Hcached. rewrite request_unfold.
    destruct (cached_hit t_get symbol use_cache cache_manager) as [d0|];
      [discriminate|].
    rewrite try_sources_priority.
    destruct (answer (nse symbol)) as [d1|] eqn:Hn.
    - rewrite conclude_with_primary by (apply (answer_usable _ _ Hn)). cbn.
      destruct (cache_after_read t_get symbol use_cache cache_manager) as [st|];
        [|discriminate].
      destruct use_cache; [|discriminate].
      intros [= <-]. split; [apply (answer_usable _ _ Hn)|].
      exists st. reflexivity.
    - destruct (answer (yahoo symbol)) as [d2|] eqn:Hy.
      + rewrite conclude_with_primary by (apply (answer_usable _ _ Hy)). cbn.
        destruct (cache_after_read t_get symbol use_cache cache_manager) as [st|];
          [|discriminate].
        destruct use_cache; [|discriminate].
        intros [= <-]. split; [apply (answer_usable _ _ Hy)|].
        exists st. reflexivity.
      + discriminate. }
  destruct Hfirst as (Hu & st & ->).
  assert (Hhit : cached_hit t_get' symbol true
                   (Some (Cache.set t_set w "real_time" symbol d [] st).2)
                 = Some d).
  { unfold cached_hit, Cache.get.
    change (Cache.cache_key_of "real_time" symbol [])
      with (Ok (Cache._get_cache_key "real_time" symbol [])).
    cbn beta iota zeta.
    rewrite CacheFacts.set_memory by reflexivity.
    rewrite (CacheFacts.set_entry_valid t_set t_get' "real_time" symbol [] d
               Hfit Hfresh).
    cbn [fst Cache.data]. rewrite (usable_not_empty d Hu). reflexivity. }
  rewrite request_unfold, Hhit. repeat split.
Qed.

Lemma second_request_served_from_cache_witness :
  sources_called
    (get_real_time_price (fun _ => None) Scenarios.nse_fails
       Scenarios.yahoo_raises 30 30 "2024-01-01T12:00:30" Cache.Written
       "RELIANCE" true
       (cache_after
          (get_real_time_price (fun _ => None) Examples.nse_answers
             Examples.yahoo_answers 0 0 "2024-01-01T12:00:00" Cache.DumpFailed
             "RELIANCE" true (Some Examples.no_cache_yet))))
  = [].
Proof.
  apply (second_request_served_from_cache (fun _ => None) Examples.nse_answers
           Examples.yahoo_answers Scenarios.nse_fails Scenarios.yahoo_raises
           0 0 30 30 "2024-01-01T12:00:00" "2024-01-01T12:00:30"
           Cache.DumpFailed Cache.Written "RELIANCE"
           (Some Examples.no_cache_yet) true Examples.nse_quote).
  - vm_compute. reflexivity.
  - vm_compute. discriminate.
  - vm_compute. reflexivity.
Defined.

End OrchestratorMoreFacts.

(** * Properties of the facade's utilities *)

Module FacadeFacts.
Import Facade.

Lemma open_at_nine_fifteen (d : Clock.datetime) :
  (Clock.weekday d < 5)%Z ->
  Yahoo.is_market_open (Clock.replace d 9 15 0 0) = true.
Proof.
  intros Hwd. unfold Yahoo.is_market_open.
  rewrite ClockFacts.weekday_replace.
  assert (Hday : (5 <=? Clock.weekday d)%Z = false) by (apply Z.leb_gt; exact Hwd).
  rewrite Hday. apply (ClockFacts.window_at_open d).
Qed.

Lemma weekday_next (d d' : Clock.datetime) :
  Clock.ordinal d' = (Clock.ordinal d + 1)%Z ->
  Clock.weekday d' = ((Clock.weekday d + 1) mod 7)%Z.
Proof.
  unfold Clock.weekday. intros ->.
  replace (Clock.ordinal d + 1 + 6)%Z with ((Clock.ordinal d + 6) + 1)%Z by lia.
  rewrite (Z.add_mod (Clock.ordinal d + 6) 1 7) by lia. reflexivity.
Qed.

Lemma weekday_range (d : Clock.datetime) : (0 <= Clock.weekday d < 7)%Z.
Proof. unfold Clock.weekday. apply Z.mod_pos_bound. lia. Qed.

Lemma add_one_day (now : Clock.datetime) :
  (Clock.ordinal now + 1 <= max_ordinal)%Z ->
  exists tomorrow,
    add_days now 1 = Ok tomorrow
    /\ Clock.ordinal tomorrow = (Clock.ordinal now + 1)%Z.
Proof.
  intros H. unfold add_days. apply Z.leb_le in H. rewrite H.
  eexists. split; reflexivity.
Qed.

(** X25. On a weekday [get_market_status] reports an event at which the
    market really changes state. The method reads the clock itself and the
    adapter reads it again; whatever the second reading is, [is_open] is what
    the adapter finds at its own reading. While the adapter finds the market
    open the next event is the close, at 15:30 of the day of the method's
    reading. While it finds it closed the next event is an opening at 09:15,
    of the same day before 09:15 and of the next day otherwise, and except
    for a Friday past 09:15 the market is open at that instant. *)
Theorem market_status_on_weekdays (now now_adapter : Clock.datetime) :
  (Clock.weekday now < 5)%Z -> (Clock.ordinal now + 1 <= max_ordinal)%Z ->
  let early :=
    ((Clock.hour now <? 9)
     || ((Clock.hour now =? 9) && (Clock.minute now <? 15)))%Z in
  exists st : market_status,
    get_market_status now now_adapter = Ok st
    /\ is_open st = Yahoo.is_market_open now_adapter
    /\ current_time st = now
    /\ (Yahoo.is_market_open now_adapter = true ->
        next_event st = "market_close"%string
        /\ next_event_time st = Some (Clock.replace now 15 30 0 0))
    /\ (Yahoo.is_market_open now_adapter = false ->
        next_event st = "market_open"%string
        /\ exists t : Clock.datetime,
             next_event_time st = Some t
             /\ Clock.ordinal t
                = (if early then Clock.ordinal now else Clock.ordinal now + 1)%Z
             /\ (Clock.hour t, Clock.minute t, Clock.second t, Clock.microsecond t)
                = (9, 15, 0, 0)%Z
             /\ (early = true \/ (Clock.weekday now < 4)%Z ->
                 Yahoo.is_market_open t = true)).
Proof.
  intros Hwd Hmax. cbn zeta. unfold get_market_status.
  assert (Hday : (5 <=? Clock.weekday now)%Z = false) by (apply Z.leb_gt; exact Hwd).
  rewrite Hday.
  destruct (Yahoo.is_market_open now_adapter) eqn:Hopen.
  - eexists. split; [reflexivity|]. cbn. split; [reflexivity|].
    split; [reflexivity|].
    split; [intros _; split; reflexivity|discriminate].
  - destruct ((Clock.hour now <? 9)
              || ((Clock.hour now =? 9) && (Clock.minute now <? 15)))%Z eqn:He.
    + eexists. split; [reflexivity|]. cbn. split; [reflexivity|].
      split; [reflexivity|].
      split; [discriminate|]. intros _. split; [reflexivity|].
      eexists. split; [reflexivity|]. split; [reflexivity|].
      split; [reflexivity|]. intros _. apply open_at_nine_fifteen. exact Hwd.
    + destruct (add_one_day now Hmax) as (tomorrow & -> & Hord).
      cbn [obind]. eexists. split; [reflexivity|]. cbn.
      split; [reflexivity|]. split; [reflexivity|].
      split; [discriminate|]. intros _.
      split; [reflexivity|]. eexists. split; [reflexivity|].
      split; [exact Hord|]. split; [reflexivity|].
      intros [Hearly | Hthu]; [discriminate Hearly|].
      apply open_at_nine_fifteen.
      rewrite (weekday_next now tomorrow Hord).
      pose proof (weekday_range now) as Hr.
      rewrite Z.mod_small by lia. lia.
Qed.

Lemma market_status_on_weekdays_witness :
  exists st : market_status,
    get_market_status Scenarios.monday_early Examples.monday_noon = Ok st
    /\ is_open st = true
    /\ next_event st = "market_close"%string.
Proof.
  destruct (market_status_on_weekdays Scenarios.monday_early Examples.monday_noon)
    as (st & Hst & Hopen & _ & Hclose & _).
  - vm_compute. reflexivity.
  - vm_compute. discriminate.
  - exists st. split; [exact Hst|]. split; [rewrite Hopen; reflexivity|].
    apply Hclose. reflexivity.
Defined.

(** X26. On a Friday after the close (the adapter finds the market closed,
    and the method's reading of the clock is not before 09:15) the next
    opening is reported for the following morning, a Saturday, at which
    [is_market_open] is false: the weekend is not skipped. *)
Theorem friday_evening_points_to_saturday (now now_adapter : Clock.datetime) :
  Clock.weekday now = 4%Z -> Yahoo.is_market_open now_adapter = false ->
  ((Clock.hour now <? 9)
   || ((Clock.hour now =? 9) && (Clock.minute now <? 15)))%Z = false ->
  (Clock.ordinal now + 1 <= max_ordinal)%Z ->
  exists (st : market_status) (t : Clock.datetime),
    get_market_status now now_adapter = Ok st
    /\ next_event st = "market_open"%string
    /\ next_event_time st = Some t
    /\ Clock.ordinal t = (Clock.ordinal now + 1)%Z
    /\ Clock.weekday t = 5%Z
    /\ Yahoo.is_market_open t = false.
Proof.
  intros Hfri Hclosed Hlate Hmax. unfold get_market_status.
  assert (Hday : (5 <=? Clock.weekday now)%Z = false)
    by (apply Z.leb_gt; lia).
  rewrite Hday, Hclosed, Hlate.
  destruct (add_one_day now Hmax) as (tomorrow & -> & Hord).
  cbn [obind].
  assert (Hsat : Clock.weekday (Clock.replace tomorrow 9 15 0 0) = 5%Z).
  { rewrite ClockFacts.weekday_replace, (weekday_next now tomorrow Hord), Hfri.
    reflexivity. }
  eexists. exists (Clock.replace tomorrow 9 15 0 0).
  split; [reflexivity|]. cbn [next_event next_event_time report].
  split; [reflexivity|]. split; [reflexivity|]. split; [exact Hord|].
  split; [exact Hsat|].
  unfold Yahoo.is_market_open. rewrite Hsat. reflexivity.
Qed.

Lemma friday_evening_points_to_saturday_witness :
  exists (st : market_status) (t : Clock.datetime),
    get_market_status Scenarios.friday_evening Scenarios.friday_evening = Ok st
    /\ next_event_time st = Some t
    /\ Yahoo.is_market_open t = false.
Proof.
  destruct (friday_evening_points_to_saturday Scenarios.friday_evening
              Scenarios.friday_evening)
    as (st & t & Hst & _ & Ht & _ & _ & Hshut).
  - vm_compute. reflexivity.
  - vm_compute. reflexivity.
  - vm_compute. reflexivity.
  - vm_compute. discriminate.
  - exists st, t. split; [exact Hst|]. split; [exact Ht|exact Hshut].
Defined.

(** X27. When the method reads the clock on a Saturday or a Sunday,
    [get_market_status] names no next opening: [next_event] falls back to
    ["market_close"] and [next_event_time] is none. [is_open] and
    [market_state] are what the adapter finds at its own reading of the
    clock; where that reading falls on the weekend too, the market is
    reported closed. *)
Theorem weekend_reports_no_next_event (now now_adapter : Clock.datetime) :
  (5 <= Clock.weekday now)%Z -> (Clock.ordinal now + 2 <= max_ordinal)%Z ->
  exists st : market_status,
    get_market_status now now_adapter = Ok st
    /\ is_open st = Yahoo.is_market_open now_adapter
    /\ market_state st
       = (if Yahoo.is_market_open now_adapter then "open" else "closed")%string
    /\ next_event st = "market_close"%string
    /\ next_event_time st = None
    /\ ((5 <= Clock.weekday now_adapter)%Z ->
        is_open st = false /\ market_state st = "closed"%string).
Proof.
  intros Hwe Hmax. unfold get_market_status.
  assert (Hday : (5 <=? Clock.weekday now)%Z = true) by (apply Z.leb_le; exact Hwe).
  rewrite Hday. unfold add_days.
  assert (Hfit : (Clock.ordinal now + (7 - Clock.weekday now) <=? max_ordinal)%Z
                 = true) by (apply Z.leb_le; lia).
  rewrite Hfit. cbn [obind]. eexists. split; [reflexivity|].
  cbn [is_open market_state next_event next_event_time report].
  split; [reflexivity|]. split; [reflexivity|]. split; [reflexivity|].
  split; [reflexivity|].
  intros Hwe'. apply Z.leb_le in Hwe'.
  unfold Yahoo.is_market_open. rewrite Hwe'. split; reflexivity.
Qed.

Lemma weekend_reports_no_next_event_witness :
  exists st : market_status,
    get_market_status Examples.saturday_noon Examples.saturday_noon = Ok st
    /\ is_open st = false
    /\ next_event_time st = None.
Proof.
  destruct (weekend_reports_no_next_event Examples.saturday_noon
              Examples.saturday_noon)
    as (st & Hst & _ & _ & _ & Hnone & Hshut).
  - vm_compute. discriminate.
  - vm_compute. discriminate.
  - exists st. split; [exact Hst|]. split; [|exact Hnone].
    apply Hshut. vm_compute. discriminate.
Defined.

Lemma search_loop_cons (query : string) (limit : Z) (stock : string * string)
    (rest : list (string * string)) (results : list dict) :
  search_loop query limit (stock :: rest) results
  = let results :=
      if stock_matches query stock
      then (results ++ [stock_result stock])%list
      else results in
    if (limit <=? Z.of_nat (length results))%Z then results
    else search_loop query limit rest results.
Proof. reflexivity. Qed.

Lemma search_loop_take (query : string) (limit : Z)
    (stocks : list (string * string)) (results : list dict) :
  (Z.of_nat (length results) < limit)%Z ->
  search_loop query limit stocks results
  = take (Z.to_nat limit)
      (results
       ++ map stock_result
            (filter (fun stock => Is_true (stock_matches query stock)) stocks))%list.
Proof.
  revert results. induction stocks as [|stock rest IH]; intros results Hlen.
  - cbn. rewrite app_nil_r. symmetry. apply take_ge. lia.
  - rewrite search_loop_cons. cbn zeta.
    destruct (stock_matches query stock) eqn:M.
    + rewrite filter_cons_True by (rewrite M; exact I).
      cbn [map].
      replace (results ++ stock_result stock
                 :: map stock_result
                      (filter (fun stock => Is_true (stock_matches query stock))
                         rest))%list
        with ((results ++ [stock_result stock])
                ++ map stock_result
                     (filter (fun stock => Is_true (stock_matches query stock))
                        rest))%list
        by (rewrite <- app_assoc; reflexivity).
      destruct (limit <=? Z.of_nat (length (results ++ [stock_result stock])))%Z
        eqn:L.
      * apply Z.leb_le in L. symmetry. apply take_app_length'.
        rewrite length_app in *. cbn [length] in *. lia.
      * apply Z.leb_gt in L. apply IH. exact L.
    + rewrite filter_cons_False by (rewrite M; intros []).
      assert (L : (limit <=? Z.of_nat (length results))%Z = false)
        by (apply Z.leb_gt; exact Hlen).
      rewrite L. apply IH. exact Hlen.
Qed.

(** X28. With a limit of at least one, [search_symbols] returns the first
    [limit] stocks of the table, in table order, whose symbol or upper-cased
    name contains the upper-cased query; fewer if fewer match. *)
Theorem search_returns_first_matches (query : string) (limit : Z) :
  (1 <= limit)%Z ->
  search_symbols query limit
  = take (Z.to_nat limit)
      (map stock_result
         (filter (fun stock => Is_true (stock_matches (PyStr.upper query) stock))
            common_stocks)).
Proof.
  intros Hlimit. unfold search_symbols.
  rewrite search_loop_take by (cbn; lia). reflexivity.
Qed.

Lemma search_returns_first_matches_witness :
  search_symbols "bank" 2
  = [stock_result ("HDFCBANK", "HDFC Bank Limited");
     stock_result ("ICICIBANK", "ICICI Bank Limited")].
Proof.
  rewrite (search_returns_first_matches "bank" 2) by lia.
  vm_compute. reflexivity.
Defined.

(** X29. A limit of zero or less does not give an empty result: the limit is
    tested only after the first stock of the table has been looked at, so the
    result is that stock alone if it matches, and empty otherwise. *)
Theorem search_with_no_room (query : string) (limit : Z) :
  (limit <= 0)%Z ->
  search_symbols query limit
  = if stock_matches (PyStr.upper query) ("RELIANCE", "Reliance Industries Limited")
    then [stock_result ("RELIANCE", "Reliance Industries Limited")]
    else [].
Proof.
  intros Hlimit. unfold search_symbols, common_stocks.
  rewrite search_loop_cons. cbn zeta.
  destruct (stock_matches (PyStr.upper query)
              ("RELIANCE", "Reliance Industries Limited")).
  - assert (L : (limit <=? Z.of_nat (length ([] ++ [stock_result
                    ("RELIANCE", "Reliance Industries Limited")])))%Z = true)
      by (apply Z.leb_le; cbn [length app]; lia).
    rewrite L. reflexivity.
  - assert (L : (limit <=? Z.of_nat (length (@nil dict)))%Z = true)
      by (apply Z.leb_le; cbn [length]; lia).
    rewrite L. reflexivity.
Qed.

Lemma search_with_no_room_witness :
  search_symbols "" 0 = [stock_result ("RELIANCE", "Reliance Industries Limited")].
Proof.
  rewrite (search_with_no_room "" 0) by lia. vm_compute. reflexivity.
Defined.

End FacadeFacts.
